(** * netCDF-viewer: the comparison service, embedded and verified

    Shallow embedding of [netcdf_viewer/services/compare_service.py] and of
    the two dataclasses of [netcdf_viewer/models/comparison_result.py].

    Conventions of the embedding.
    - A Python [str] is a [string]; one [ascii] stands for one code point in
      the range U+0000..U+00FF.  The character classes used by the built-in
      methods ([str.strip], [str.isdigit], [str.lower], [int]) are written
      out for that range.
    - A Python [int] is a [Z].
    - The CSV file is given as the list of rows that [csv.reader] yields,
      the header row included.
    - The [ncompare] library, [netCDF4]/[h5py], [pathlib], [tempfile] and
      [uuid] are collaborators: they appear as fields of a [World] record.  *)

From Stdlib Require Import String Ascii ZArith NArith List Bool Lia.
From Stdlib Require Import Numbers.DecimalString.
Import ListNotations.

Local Open Scope string_scope.
Local Open Scope Z_scope.

(* ===================================================================== *)
(** ** Built-in string operations of Python, on U+0000..U+00FF           *)
(* ===================================================================== *)

Module PyStr.

Definition code (c : ascii) : N := N_of_ascii c.

(** [str.isspace] on one character: TAB..CR, FS..US, SPACE, NEL, NBSP. *)
Definition isspace (c : ascii) : bool :=
  let n := code c in
  ((9 <=? n) && (n <=? 13) || (28 <=? n) && (n <=? 32)
   || (n =? 133) || (n =? 160))%N.

(** The C-locale [Py_ISSPACE] that [int] uses on its byte buffer. *)
Definition c_isspace (c : ascii) : bool :=
  let n := code c in ((9 <=? n) && (n <=? 13) || (n =? 32))%N.

Definition is_decimal (c : ascii) : bool :=
  let n := code c in ((48 <=? n) && (n <=? 57))%N.

(** [str.isdigit] on one character: the decimal digits and the superscript
    digits U+00B2, U+00B3, U+00B9 (Numeric_Type=Digit). *)
Definition isdigit_char (c : ascii) : bool :=
  let n := code c in
  (is_decimal c || (n =? 178) || (n =? 179) || (n =? 185))%N.

Fixpoint all_chars (p : ascii -> bool) (s : string) : bool :=
  match s with
  | EmptyString => true
  | String c s' => p c && all_chars p s'
  end.

(** [s.isdigit()]: at least one character, and all of them digits. *)
Definition isdigit (s : string) : bool :=
  match s with
  | EmptyString => false
  | _ => all_chars isdigit_char s
  end.

Fixpoint lstrip (s : string) : string :=
  match s with
  | String c s' => if isspace c then lstrip s' else s
  | EmptyString => EmptyString
  end.

Fixpoint rstrip (s : string) : string :=
  match s with
  | String c s' =>
      match rstrip s' with
      | EmptyString => if isspace c then EmptyString else String c EmptyString
      | r => String c r
      end
  | EmptyString => EmptyString
  end.

(** [s.strip()] *)
Definition strip (s : string) : string := rstrip (lstrip s).

Definition lower_char (c : ascii) : ascii :=
  let n := code c in
  if ((65 <=? n) && (n <=? 90)
      || (192 <=? n) && (n <=? 222) && negb (n =? 215))%N
  then ascii_of_N (n + 32) else c.

(** [s.lower()] *)
Fixpoint lower (s : string) : string :=
  match s with
  | EmptyString => EmptyString
  | String c s' => String (lower_char c) (lower s')
  end.

(** [sub in s] *)
Fixpoint contains (sub s : string) : bool :=
  prefix sub s ||
  match s with
  | EmptyString => false
  | String _ s' => contains sub s'
  end.

(** [x in (a, b, ...)] for a tuple of strings. *)
Definition in_tuple (x : string) (t : list string) : bool :=
  existsb (String.eqb x) t.

(** *** [int(s)] in base 10

    [int] first rewrites the text to a byte buffer: code points below 127
    are kept, a non-ASCII space becomes a blank, and the first other
    character becomes [?] and ends the buffer.  A text that is ASCII
    throughout is taken as it is. *)
Definition is_ascii (c : ascii) : bool := (code c <? 128)%N.

Fixpoint transform_decimal_and_space (s : string) : string :=
  match s with
  | EmptyString => EmptyString
  | String c s' =>
      if (code c <? 127)%N then String c (transform_decimal_and_space s')
      else if isspace c then String " " (transform_decimal_and_space s')
      else String "?" EmptyString
  end.

Definition to_ascii_buffer (s : string) : string :=
  if all_chars is_ascii s then s else transform_decimal_and_space s.

Fixpoint skip_c_space (s : string) : string :=
  match s with
  | String c s' => if c_isspace c then skip_c_space s' else s
  | EmptyString => EmptyString
  end.

Inductive prev_char := AtStart | AfterDigit | AfterUnderscore.

Definition digit_value (c : ascii) : Z := Z.of_N (code c) - 48.

(** Digits with single underscores between them, then blanks to the end. *)
Fixpoint digits_then_space (prev : prev_char) (acc : Z) (s : string)
  : option Z :=
  match s with
  | EmptyString =>
      match prev with AfterDigit => Some acc | _ => None end
  | String c s' =>
      if is_decimal c then
        digits_then_space AfterDigit (10 * acc + digit_value c) s'
      else if Ascii.eqb c "_" then
        match prev with
        | AfterDigit => digits_then_space AfterUnderscore acc s'
        | _ => None
        end
      else
        match prev with
        | AfterDigit =>
            match skip_c_space s with
            | EmptyString => Some acc
            | _ => None
            end
        | _ => None
        end
  end.

(** The limit on the digits of a numeral: [int] raises [ValueError] on a
    numeral of more digits.  4300 is the default of CPython 3.11, and of
    3.10.7 and later ([sys.int_info.default_max_str_digits]). *)
Definition max_str_digits : N := 4300.

(** The decimal digits of the buffer; signs, blanks and underscores do not
    count.  A buffer that holds a well-formed numeral has no digit outside
    that numeral. *)
Fixpoint count_decimal (s : string) : N :=
  match s with
  | EmptyString => 0
  | String c s' => ((if is_decimal c then 1 else 0) + count_decimal s')%N
  end.

(** [int(s)]: [Some n] is the value, [None] is [ValueError]. *)
Definition int (s : string) : option Z :=
  let buffer := skip_c_space (to_ascii_buffer s) in
  if (max_str_digits <? count_decimal buffer)%N then None
  else
    match buffer with
    | String "+" s' => digits_then_space AtStart 0 s'
    | String "-" s' => option_map Z.opp (digits_then_space AtStart 0 s')
    | s' => digits_then_space AtStart 0 s'
    end.

(** [str(n)] for an integer. *)
Definition str_of_int (n : Z) : string :=
  NilZero.string_of_int (Z.to_int n).

End PyStr.

(* ===================================================================== *)
(** ** Statements, local state and exceptions                             *)
(* ===================================================================== *)

(** The exceptions the service meets. *)
Inductive exn : Type :=
| KeyError
| TypeError
| ValueError
| OtherError (msg : string).

(** A statement runs on a state [S] and either completes with a value
    ([inr]) or raises ([inl]); what it assigned before raising stays. *)
Definition Stmt (S A : Type) : Type := S -> S * (exn + A).

Definition ret {S A} (a : A) : Stmt S A := fun st => (st, inr a).

Definition raise {S A} (e : exn) : Stmt S A := fun st => (st, inl e).

Definition bind {S A B} (m : Stmt S A) (k : A -> Stmt S B) : Stmt S B :=
  fun st =>
    match m st with
    | (st', inr a) => k a st'
    | (st', inl e) => (st', inl e)
    end.

Notation "x <- m ;; k" := (bind m (fun x => k))
  (at level 61, m at next level, right associativity).
Notation "m ;;; k" := (bind m (fun _ => k))
  (at level 61, right associativity).

(** A call that does not touch the state. *)
Definition lift {S A} (r : exn + A) : Stmt S A := fun st => (st, r).

Definition modify {S} (f : S -> S) : Stmt S unit :=
  fun st => (f st, inr tt).

Definition get {S} : Stmt S S := fun st => (st, inr st).

(** [try: body / except <handled>: handler] *)
Definition try_except {S} (body : Stmt S unit) (handled : exn -> bool)
  (handler : Stmt S unit) : Stmt S unit :=
  fun st =>
    match body st with
    | (st', inl e) => if handled e then handler st' else (st', inl e)
    | r => r
    end.

Definition when {S} (b : bool) (body : Stmt S unit) : Stmt S unit :=
  if b then body else ret tt.

(** [for x in xs: body]; an exception leaves the loop. *)
Fixpoint for_each {S A} (xs : list A) (body : A -> Stmt S unit)
  : Stmt S unit :=
  match xs with
  | [] => ret tt
  | x :: rest => body x ;;; for_each rest body
  end.

Definition is_ValueError (e : exn) : bool :=
  match e with ValueError => true | _ => false end.

Definition is_KeyError_or_TypeError (e : exn) : bool :=
  match e with KeyError | TypeError => true | _ => false end.

(** [int(s)] as a statement. *)
Definition int_ {S} (s : string) : Stmt S Z :=
  match PyStr.int s with
  | Some n => ret n
  | None => raise ValueError
  end.

(* ===================================================================== *)
(** ** models/comparison_result.py                                        *)
(* ===================================================================== *)

Module Models.

(** A [pathlib.Path], by its text. *)
Record Path := mkPath { path_str : string }.

(** A value of type [str | Path]. *)
Inductive StrOrPath :=
| AsStr (s : string)
| AsPath (p : Path).

(** Truth value: an empty [str] is false, a [Path] is always true. *)
Definition truthy (x : StrOrPath) : bool :=
  match x with
  | AsStr s => negb (String.eqb s "")
  | AsPath _ => true
  end.

Record ComparisonOptions := mkOptions {
  only_differences : bool;
  include_attributes : bool;
  include_chunking : bool;
  opt_report_text_path : StrOrPath;
  opt_report_csv_path : StrOrPath
}.

(** [ComparisonOptions()] *)
Definition default_options : ComparisonOptions :=
  mkOptions false true false (AsStr "") (AsStr "").

(** [(name, length)] *)
Definition Dim := (string * Z)%type.
(** [(name, shape_str, point_count)] *)
Definition VarEntry := (string * string * Z)%type.
(** [(info, value_a, value_b)] *)
Definition Detail := (string * string * string)%type.

Record ComparisonResult := mkResult {
  file_a_path : string;
  file_b_path : string;
  dimensions_a : list Dim;
  dimensions_b : list Dim;
  variables_a : list VarEntry;
  variables_b : list VarEntry;
  total_differences : Z;
  variables_only_in_a : Z;
  variables_only_in_b : Z;
  variables_shared : Z;
  groups_only_in_a : Z;
  groups_only_in_b : Z;
  groups_shared : Z;
  attribute_difference_count : Z;
  difference_details : list Detail;
  report_text_path : StrOrPath;
  report_csv_path : StrOrPath
}.

(** [ComparisonResult(file_a_path=a, file_b_path=b)] *)
Definition ComparisonResult_ (a b : string) : ComparisonResult :=
  mkResult a b [] [] [] [] 0 0 0 0 0 0 0 0 [] (AsStr "") (AsStr "").

End Models.

(* ===================================================================== *)
(** ** services/compare_service.py                                        *)
(* ===================================================================== *)

Module CompareService.
Import Models.

(** *** The CSV difference parser *)

(** One row of [csv.reader]: the list of its columns. *)
Definition Row := list string.

(** The local variables of [_parse_csv_for_summary_and_diffs]. *)
Record Locals := mkLocals {
  var_left : Z;  var_right : Z;  var_shared : Z;
  grp_left : Z;  grp_right : Z;  grp_shared : Z;
  attr_diffs : Z;
  details : list Detail
}.

Definition initial_locals : Locals := mkLocals 0 0 0 0 0 0 0 [].

Definition set_var_left n st :=
  mkLocals n (var_right st) (var_shared st) (grp_left st) (grp_right st)
           (grp_shared st) (attr_diffs st) (details st).
Definition set_var_right n st :=
  mkLocals (var_left st) n (var_shared st) (grp_left st) (grp_right st)
           (grp_shared st) (attr_diffs st) (details st).
Definition set_var_shared n st :=
  mkLocals (var_left st) (var_right st) n (grp_left st) (grp_right st)
           (grp_shared st) (attr_diffs st) (details st).
Definition set_grp_left n st :=
  mkLocals (var_left st) (var_right st) (var_shared st) n (grp_right st)
           (grp_shared st) (attr_diffs st) (details st).
Definition set_grp_right n st :=
  mkLocals (var_left st) (var_right st) (var_shared st) (grp_left st) n
           (grp_shared st) (attr_diffs st) (details st).
Definition set_grp_shared n st :=
  mkLocals (var_left st) (var_right st) (var_shared st) (grp_left st)
           (grp_right st) n (attr_diffs st) (details st).
Definition incr_attr_diffs st :=
  mkLocals (var_left st) (var_right st) (var_shared st) (grp_left st)
           (grp_right st) (grp_shared st) (attr_diffs st + 1) (details st).
Definition append_detail d st :=
  mkLocals (var_left st) (var_right st) (var_shared st) (grp_left st)
           (grp_right st) (grp_shared st) (attr_diffs st) (details st ++ [d])%list.

Definition structural_labels : list string :=
  ["dtype"; "dimensions"; "shape"; "chunksize"].

(** The test of line 98. *)
Definition counts_as_attribute (info : string) : bool :=
  PyStr.contains "attribute" (PyStr.lower info)
  || negb (PyStr.in_tuple info structural_labels).

(** [int(val_a) if val_a.isdigit() else int(val_b)] *)
Definition prefer_a (val_a val_b : string) : Stmt Locals Z :=
  if PyStr.isdigit val_a then int_ val_a else int_ val_b.

(** [int(v) if v.isdigit() else 0] *)
Definition digits_or_zero (v : string) : Stmt Locals Z :=
  if PyStr.isdigit v then int_ v else ret 0.

(** The body of the [for row in reader] loop, lines 92-121. *)
Definition loop_body (row : Row) : Stmt Locals unit :=
  if (Nat.ltb (List.length row) 3) then ret tt (* continue *)
  else
    let info := PyStr.strip (nth 0 row "") in
    let val_a := PyStr.strip (nth 1 row "") in
    let val_b := PyStr.strip (nth 2 row "") in
    let marker :=
      if Nat.ltb 3 (List.length row) then PyStr.strip (nth 3 row "")
      else "" in
    when (String.eqb marker "***")
      (modify (append_detail (info, val_a, val_b)) ;;;
       when (counts_as_attribute info) (modify incr_attr_diffs)) ;;;
    when (PyStr.contains "Total # of shared variables" info)
      (try_except
         (n <- prefer_a val_a val_b ;; modify (set_var_shared n))
         is_ValueError (ret tt)) ;;;
    when (PyStr.contains "Total # of non-shared variables" info)
      (try_except
         (l <- digits_or_zero val_a ;; modify (set_var_left l) ;;;
          r <- digits_or_zero val_b ;; modify (set_var_right r))
         is_ValueError (ret tt)) ;;;
    when (PyStr.contains "Total # of shared groups" info)
      (try_except
         (n <- prefer_a val_a val_b ;; modify (set_grp_shared n))
         is_ValueError (ret tt)) ;;;
    when (PyStr.contains "Total # of non-shared groups" info)
      (try_except
         (l <- digits_or_zero val_a ;; modify (set_grp_left l) ;;;
          r <- digits_or_zero val_b ;; modify (set_grp_right r))
         is_ValueError (ret tt)).

(** What the function returns, in the order of line 123. *)
Definition Summary : Type :=
  (Z * Z * Z * Z * Z * Z * Z * list Detail)%type.

(** [_parse_csv_for_summary_and_diffs], on the rows that [csv.reader]
    yields for the file.  [next(reader, None)] takes the header away, if
    there is one.  [inl e]: the exception [e] left the function. *)
Definition _parse_csv_for_summary_and_diffs (rows : list Row)
  : exn + Summary :=
  match for_each (tl rows) loop_body initial_locals with
  | (st, inr _) =>
      inr (var_left st, var_right st, var_shared st,
           grp_left st, grp_right st, grp_shared st,
           Z.of_nat (List.length (details st)), details st)
  | (_, inl e) => inl e
  end.

(** The components of a summary, named as the fields they are merged into. *)
Definition variables_only_in_a_of (s : Summary) : Z :=
  let '(x, _, _, _, _, _, _, _) := s in x.
Definition variables_only_in_b_of (s : Summary) : Z :=
  let '(_, x, _, _, _, _, _, _) := s in x.
Definition variables_shared_of (s : Summary) : Z :=
  let '(_, _, x, _, _, _, _, _) := s in x.
Definition groups_only_in_a_of (s : Summary) : Z :=
  let '(_, _, _, x, _, _, _, _) := s in x.
Definition groups_only_in_b_of (s : Summary) : Z :=
  let '(_, _, _, _, x, _, _, _) := s in x.
Definition groups_shared_of (s : Summary) : Z :=
  let '(_, _, _, _, _, x, _, _) := s in x.
Definition attribute_difference_count_of (s : Summary) : Z :=
  let '(_, _, _, _, _, _, x, _) := s in x.
Definition difference_details_of (s : Summary) : list Detail :=
  let '(_, _, _, _, _, _, _, x) := s in x.

(** *** The collaborators

    What [ncompare], [netCDF4]/[h5py], [pathlib], [tempfile] and [uuid]
    answer.  A call that can raise returns [exn + _]. *)

Record FileToCompare := mkFile { path : Path; type : string }.

(** A variable of an open file; [None]: it has no [shape] attribute. *)
Record NcVariable := mkVariable { shape : option (list Z) }.

Record Group := mkGroup {
  variables : string -> exn + NcVariable;      (* grp.variables[vname] *)
  getitem : string -> exn + NcVariable         (* grp[vname] *)
}.

Record Dataset := mkDataset {
  root : Group;
  groups : string -> exn + Group;            (* ds.groups[gname] *)
  getitem_group : string -> exn + Group      (* ds[gname] *)
}.

(** The files on disk once [ncompare.compare] has returned. *)
Record FileSystem := mkFS {
  exists_ : Path -> exn + bool;              (* p.exists(), or OSError *)
  csv_rows : Path -> exn + list Row          (* open(p) and csv.reader *)
}.

(** The arguments of one call of [ncompare.compare]. *)
Record CompareArgs := mkArgs {
  arg_a : Path;
  arg_b : Path;
  only_diffs : bool;
  no_color : bool;
  show_chunks : bool;
  show_attributes : bool;
  file_text : string;
  file_csv : string;
  file_xlsx : string
}.

Record World := mkWorld {
  Path_ : string -> Path;                               (* Path(s) *)
  path_join : Path -> string -> Path;                   (* p / name *)
  gettempdir : string;
  uuid4_hex : string;
  ensure_valid_path_exists : string -> exn + Path;
  validate_file_type : Path -> exn + FileToCompare;
  get_root_dims : FileToCompare -> exn + list (string * Z);
  get_root_groups : FileToCompare -> exn + list string;
  get_variables : Group -> string -> exn + list string;
  netCDF4_Dataset : Path -> exn + Dataset;
  h5py_File : Path -> exn + Dataset;
  ncompare_compare : CompareArgs -> exn + (Z * FileSystem)
}.

(** *** [_collect_variables_with_shapes] *)

(** [getattr(var, "shape", ())] *)
Definition shape_of (var : NcVariable) : list Z :=
  match shape var with Some sh => sh | None => [] end.

(** [str(shape)] for a tuple of integers. *)
Definition str_of_tuple (sh : list Z) : string :=
  match sh with
  | [] => "()"
  | [x] => "(" ++ PyStr.str_of_int x ++ ",)"
  | _ => "(" ++ String.concat ", " (map PyStr.str_of_int sh) ++ ")"
  end.

(** [count = 1; for s in shape: count *= int(s)]; the lengths in a shape
    are integers, so [int(s)] is [s]. *)
Definition point_count (sh : list Z) : Z :=
  fold_left (fun count s => count * s) sh 1.

(** The loop over the variables of one group (lines 37-44 for the root,
    lines 50-57 for a subgroup); [name_of] is the name put in the entry. *)
Definition collect_group (w : World) (ty : string) (grp : Group)
  (name_of : string -> string) : Stmt (list VarEntry) unit :=
  names <- lift (get_variables w grp ty) ;;
  for_each names (fun vname =>
    var <- lift (if String.eqb ty "netcdf" then variables grp vname
                 else getitem grp vname) ;;
    let sh := shape_of var in
    modify (fun result =>
              (result ++ [(name_of vname, str_of_tuple sh, point_count sh)])%list)).

Definition _collect_variables_with_shapes (w : World)
  (file_obj : FileToCompare) : exn + list VarEntry :=
  let ty := type file_obj in
  let opener :=
    if String.eqb ty "netcdf" then netCDF4_Dataset w else h5py_File w in
  match opener (path file_obj) with
  | inl e => inl e
  | inr ds =>
      let body : Stmt (list VarEntry) unit :=
        collect_group w ty (root ds) (fun vname => vname) ;;;
        gnames <- lift (get_root_groups w file_obj) ;;
        for_each gnames (fun gname =>
          try_except
            (grp <- lift (if String.eqb ty "netcdf" then groups ds gname
                          else getitem_group ds gname) ;;
             collect_group w ty grp (fun vname => gname ++ "/" ++ vname))
            is_KeyError_or_TypeError
            (ret tt) (* continue *)) in
      match body [] with
      | (result, inr _) => inr result
      | (_, inl e) => inl e
      end
  end.

(** *** [_dimensions_list] *)
Definition _dimensions_list (w : World) (file_obj : FileToCompare)
  : exn + list Dim :=
  match get_root_dims w file_obj with
  | inl e => inl e
  | inr dims => inr (map (fun '(k, v) => (k, v)) dims)
  end.

(** *** [run_comparison] *)

(** The state of one run: the calls of [ncompare.compare] made so far and
    the [result] object being filled. *)
Record RunState := mkRun {
  compare_calls : list CompareArgs;
  result : ComparisonResult
}.

Definition initial_run : RunState := mkRun [] (ComparisonResult_ "" "").

Definition assign (f : ComparisonResult -> ComparisonResult)
  : Stmt RunState unit :=
  modify (fun st => mkRun (compare_calls st) (f (result st))).

(** The call of [ncompare.compare], line 163. *)
Definition call_compare (w : World) (args : CompareArgs)
  : Stmt RunState (Z * FileSystem) :=
  fun st =>
    (mkRun (compare_calls st ++ [args])%list (result st),
     ncompare_compare w args).

Definition set_dimensions_a v r :=
  mkResult (file_a_path r) (file_b_path r) v (dimensions_b r)
    (variables_a r) (variables_b r) (total_differences r)
    (variables_only_in_a r) (variables_only_in_b r) (variables_shared r)
    (groups_only_in_a r) (groups_only_in_b r) (groups_shared r)
    (attribute_difference_count r) (difference_details r)
    (report_text_path r) (report_csv_path r).
Definition set_dimensions_b v r :=
  mkResult (file_a_path r) (file_b_path r) (dimensions_a r) v
    (variables_a r) (variables_b r) (total_differences r)
    (variables_only_in_a r) (variables_only_in_b r) (variables_shared r)
    (groups_only_in_a r) (groups_only_in_b r) (groups_shared r)
    (attribute_difference_count r) (difference_details r)
    (report_text_path r) (report_csv_path r).
Definition set_variables_a v r :=
  mkResult (file_a_path r) (file_b_path r) (dimensions_a r) (dimensions_b r)
    v (variables_b r) (total_differences r)
    (variables_only_in_a r) (variables_only_in_b r) (variables_shared r)
    (groups_only_in_a r) (groups_only_in_b r) (groups_shared r)
    (attribute_difference_count r) (difference_details r)
    (report_text_path r) (report_csv_path r).
Definition set_variables_b v r :=
  mkResult (file_a_path r) (file_b_path r) (dimensions_a r) (dimensions_b r)
    (variables_a r) v (total_differences r)
    (variables_only_in_a r) (variables_only_in_b r) (variables_shared r)
    (groups_only_in_a r) (groups_only_in_b r) (groups_shared r)
    (attribute_difference_count r) (difference_details r)
    (report_text_path r) (report_csv_path r).
Definition set_total_differences v r :=
  mkResult (file_a_path r) (file_b_path r) (dimensions_a r) (dimensions_b r)
    (variables_a r) (variables_b r) v
    (variables_only_in_a r) (variables_only_in_b r) (variables_shared r)
    (groups_only_in_a r) (groups_only_in_b r) (groups_shared r)
    (attribute_difference_count r) (difference_details r)
    (report_text_path r) (report_csv_path r).
Definition set_report_text_path v r :=
  mkResult (file_a_path r) (file_b_path r) (dimensions_a r) (dimensions_b r)
    (variables_a r) (variables_b r) (total_differences r)
    (variables_only_in_a r) (variables_only_in_b r) (variables_shared r)
    (groups_only_in_a r) (groups_only_in_b r) (groups_shared r)
    (attribute_difference_count r) (difference_details r)
    v (report_csv_path r).
Definition set_report_csv_path v r :=
  mkResult (file_a_path r) (file_b_path r) (dimensions_a r) (dimensions_b r)
    (variables_a r) (variables_b r) (total_differences r)
    (variables_only_in_a r) (variables_only_in_b r) (variables_shared r)
    (groups_only_in_a r) (groups_only_in_b r) (groups_shared r)
    (attribute_difference_count r) (difference_details r)
    (report_text_path r) v.

(** The tuple assignment of lines 177-186. *)
Definition merge_summary (s : Summary) r :=
  let '(vl, vr, vs, gl, gr, gs, ad, dd) := s in
  mkResult (file_a_path r) (file_b_path r) (dimensions_a r) (dimensions_b r)
    (variables_a r) (variables_b r) (total_differences r)
    vl vr vs gl gr gs ad dd
    (report_text_path r) (report_csv_path r).

(** [Path(x)] for [x : str | Path] *)
Definition to_Path (w : World) (x : StrOrPath) : Path :=
  match x with
  | AsStr s => Path_ w s
  | AsPath p => p
  end.

(** [Path(x) if x else None] *)
Definition optional_path (w : World) (x : StrOrPath) : option Path :=
  if truthy x then Some (to_Path w x) else None.

(** [str(p) if p else ""] *)
Definition str_or_empty (p : option Path) : string :=
  match p with
  | Some q => path_str q
  | None => ""
  end.

(** Lines 158-160: the CSV goes to a fresh temporary file when the caller
    named none. *)
Definition csv_destination (w : World) (report_csv : option Path)
  : option Path :=
  match report_csv with
  | Some p => Some p
  | None =>
      Some (path_join w (Path_ w (gettempdir w))
              ("ncompare_" ++ substring 0 8 (uuid4_hex w) ++ ".csv"))
  end.

(** Lines 175-186. *)
Definition merge_csv_report (fs : FileSystem) (report_csv : option Path)
  : Stmt RunState unit :=
  match report_csv with
  | Some p =>
      there <- lift (exists_ fs p) ;;
      when there
        (assign (set_report_csv_path (AsPath p)) ;;;
         rows <- lift (csv_rows fs p) ;;
         s <- lift (_parse_csv_for_summary_and_diffs rows) ;;
         assign (merge_summary s))
  | None => ret tt
  end.

(** Lines 187-188. *)
Definition record_text_report (fs : FileSystem) (report_txt : option Path)
  : Stmt RunState unit :=
  match report_txt with
  | Some p =>
      there <- lift (exists_ fs p) ;;
      when there (assign (set_report_text_path (AsPath p)))
  | None => ret tt
  end.

(** The keyword arguments of lines 163-173. *)
Definition compare_args (path_a path_b : Path) (options : ComparisonOptions)
  (report_txt report_csv : option Path) : CompareArgs :=
  mkArgs path_a path_b
    (only_differences options)      (* only_diffs *)
    true                            (* no_color *)
    (include_chunking options)      (* show_chunks *)
    (include_attributes options)    (* show_attributes *)
    (str_or_empty report_txt)       (* file_text *)
    (str_or_empty report_csv)       (* file_csv *)
    "".                             (* file_xlsx *)

Definition run_comparison (w : World) (file_a file_b : string)
  (options : ComparisonOptions) : Stmt RunState ComparisonResult :=
  path_a <- lift (ensure_valid_path_exists w file_a) ;;
  path_b <- lift (ensure_valid_path_exists w file_b) ;;
  file_a_obj <- lift (validate_file_type w path_a) ;;
  file_b_obj <- lift (validate_file_type w path_b) ;;
  assign (fun _ => ComparisonResult_ (path_str path_a) (path_str path_b)) ;;;
  da <- lift (_dimensions_list w file_a_obj) ;;
  assign (set_dimensions_a da) ;;;
  db <- lift (_dimensions_list w file_b_obj) ;;
  assign (set_dimensions_b db) ;;;
  va <- lift (_collect_variables_with_shapes w file_a_obj) ;;
  assign (set_variables_a va) ;;;
  vb <- lift (_collect_variables_with_shapes w file_b_obj) ;;
  assign (set_variables_b vb) ;;;
  let report_txt := optional_path w (opt_report_text_path options) in
  let report_csv :=
    csv_destination w (optional_path w (opt_report_csv_path options)) in
  out <- call_compare w
           (compare_args path_a path_b options report_txt report_csv) ;;
  let '(total, fs) := out in
  assign (set_total_differences total) ;;;
  merge_csv_report fs report_csv ;;;
  record_text_report fs report_txt ;;;
  st <- get ;;
  ret (result st).

End CompareService.

(* ===================================================================== *)
(** ** gui/main_window.py                                                 *)
(* ===================================================================== *)

(** The window is the record of what its handlers read and write of the
    widgets; the message boxes shown are kept in a list.  The thread that
    [_on_compare] starts is the worker it holds; the worker's signal is a
    value, delivered to the slots that lines 183-184 connect.  Logging is
    left out. *)

Module Gui.
Import Models CompareService.

Definition nl : string := String (ascii_of_nat 10) EmptyString.

(** [class CompareWorker], lines 36-40. *)
Record CompareWorker := mkWorker {
  _file_a : string;
  _file_b : string;
  _options : ComparisonOptions
}.

(** The two signals of the worker; [finished] carries a result or [None]. *)
Inductive Signal :=
| finished (result : option ComparisonResult)
| error (message : string).

(** [QMessageBox.warning] and [QMessageBox.critical]: title and text. *)
Inductive Dialog :=
| warning (title text : string)
| critical (title text : string).

(** One row of the summary table: source, variable, shape, point count. *)
Definition TableRow := (string * string * string * string)%type.

Record Window := mkWindow {
  file_a_edit : string;                  (* file_a_edit.text() *)
  file_b_edit : string;
  only_differences_cb : bool;            (* isChecked() *)
  include_attributes_cb : bool;
  include_chunking_cb : bool;
  compare_btn_enabled : bool;
  progress_bar_visible : bool;
  summary_file_a_label : string;
  summary_file_b_label : string;
  summary_table : list TableRow;
  diff_text : string;
  _worker : option CompareWorker;        (* started on its thread *)
  dialogs : list Dialog                  (* the message boxes shown *)
}.

Section Texts.

(** Left open: [repr] of a [str], [str] of an exception, and the two
    characters of the window's literals that lie outside U+00FF, EM DASH
    (U+2014) and HORIZONTAL ELLIPSIS (U+2026). *)
Variable repr : string -> string.
Variable str_of_exn : exn -> string.
Variable em_dash : string.
Variable ellipsis : string.

(** [CompareWorker.run], lines 42-49: the signal it emits. *)
Definition run (w : World) (self : CompareWorker) (st : RunState)
  : RunState * Signal :=
  match run_comparison w (_file_a self) (_file_b self) (_options self) st
  with
  | (st', inr result) => (st', finished (Some result))
  | (st', inl e) => (st', error (str_of_exn e))
  end.

(** [MainWindow.__init__], as far as the handlers are concerned. *)
Definition initial_window : Window :=
  mkWindow "" "" false true false true false
    "File A: (no comparison yet)" "File B: (no comparison yet)"
    [] "" None [].

(** [_clear_results], lines 189-193. *)
Definition _clear_results (self : Window) : Window :=
  mkWindow (file_a_edit self) (file_b_edit self)
    (only_differences_cb self) (include_attributes_cb self)
    (include_chunking_cb self)
    (compare_btn_enabled self) (progress_bar_visible self)
    ("File A: (running comparison" ++ ellipsis ++ ")")
    ("File B: (running comparison" ++ ellipsis ++ ")")
    [] ""
    (_worker self) (dialogs self).

Definition show_dialog (d : Dialog) (self : Window) : Window :=
  mkWindow (file_a_edit self) (file_b_edit self)
    (only_differences_cb self) (include_attributes_cb self)
    (include_chunking_cb self)
    (compare_btn_enabled self) (progress_bar_visible self)
    (summary_file_a_label self) (summary_file_b_label self)
    (summary_table self) (diff_text self)
    (_worker self) (dialogs self ++ [d])%list.

(** [compare_btn.setEnabled(enabled)] and
    [progress_bar.setVisible(visible)]. *)
Definition set_busy (enabled visible : bool) (self : Window) : Window :=
  mkWindow (file_a_edit self) (file_b_edit self)
    (only_differences_cb self) (include_attributes_cb self)
    (include_chunking_cb self)
    enabled visible
    (summary_file_a_label self) (summary_file_b_label self)
    (summary_table self) (diff_text self)
    (_worker self) (dialogs self).

Definition start_worker (worker : CompareWorker) (self : Window) : Window :=
  mkWindow (file_a_edit self) (file_b_edit self)
    (only_differences_cb self) (include_attributes_cb self)
    (include_chunking_cb self)
    (compare_btn_enabled self) (progress_bar_visible self)
    (summary_file_a_label self) (summary_file_b_label self)
    (summary_table self) (diff_text self)
    (Some worker) (dialogs self).

(** [_on_compare], lines 158-187. *)
Definition _on_compare (self : Window) : Window :=
  let file_a := PyStr.strip (file_a_edit self) in
  let file_b := PyStr.strip (file_b_edit self) in
  if String.eqb file_a "" || String.eqb file_b "" then
    show_dialog
      (warning "Missing files"
         "Please select both File A and File B before comparing.")
      self
  else
    let options :=
      mkOptions (only_differences_cb self) (include_attributes_cb self)
        (include_chunking_cb self) (AsStr "") (AsStr "") in
    start_worker (mkWorker file_a file_b options)
      (_clear_results (set_busy false true self)).

(** [dims_str], lines 213-216. *)
Definition dims_str (dims : list Dim) : string :=
  match dims with
  | [] => em_dash
  | _ =>
      String.concat ", "
        (map (fun d => fst d ++ "=" ++ PyStr.str_of_int (snd d)) dims)
  end.

(** One loop of lines 222-225: a row appended for each variable. *)
Definition append_rows (source : string) (vars : list VarEntry)
  (rows : list TableRow) : list TableRow :=
  fold_left
    (fun rows v =>
       let '(name, shape, count) := v in
       (rows ++ [(source, name, shape, PyStr.str_of_int count)])%list)
    vars rows.

(** The local [rows] of lines 221-225. *)
Definition summary_rows (result : ComparisonResult) : list TableRow :=
  append_rows "File B" (variables_b result)
    (append_rows "File A" (variables_a result) []).

(** [str(x)] for [x : str | Path], as an f-string formats it. *)
Definition str_of_path (x : StrOrPath) : string :=
  match x with
  | AsStr s => s
  | AsPath p => path_str p
  end.

(** The line of one detail row, line 244. *)
Definition detail_line (d : Detail) : string :=
  let '(info, val_a, val_b) := d in
  "  " ++ info ++ ": A=" ++ repr val_a ++ " | B=" ++ repr val_b.

(** The local [lines] of lines 234-250. *)
Definition display_lines (result : ComparisonResult) : list string :=
  let lines :=
    [ "Total differences: "
        ++ PyStr.str_of_int (total_differences result);
      "Variables " ++ em_dash ++ " only in A: "
        ++ PyStr.str_of_int (variables_only_in_a result)
        ++ ", only in B: " ++ PyStr.str_of_int (variables_only_in_b result)
        ++ ", shared: " ++ PyStr.str_of_int (variables_shared result);
      "Groups " ++ em_dash ++ " only in A: "
        ++ PyStr.str_of_int (groups_only_in_a result)
        ++ ", only in B: " ++ PyStr.str_of_int (groups_only_in_b result)
        ++ ", shared: " ++ PyStr.str_of_int (groups_shared result);
      "Attribute differences: "
        ++ PyStr.str_of_int (attribute_difference_count result);
      "" ] in
  let lines :=
    match difference_details result with
    | [] => lines
    | _ =>
        let lines := (lines ++ ["--- Detail ---"])%list in
        let lines :=
          fold_left (fun lines d => (lines ++ [detail_line d])%list)
            (firstn 200 (difference_details result)) lines in
        if Nat.ltb 200 (List.length (difference_details result)) then
          let more :=
            "  ... and "
              ++ PyStr.str_of_int
                   (Z.of_nat (List.length (difference_details result))
                    - 200)
              ++ " more." in
          (lines ++ [more])%list
        else lines
    end in
  let lines :=
    if truthy (report_csv_path result) then
      let line :=
        nl ++ "Report (CSV): " ++ str_of_path (report_csv_path result) in
      (lines ++ [line])%list
    else lines in
  if truthy (report_text_path result) then
    let line :=
      "Report (text): " ++ str_of_path (report_text_path result) in
    (lines ++ [line])%list
  else lines.

(** [_display_result], lines 212-251: [setRowCount] and the [setItem] loop
    put [rows[i]] in row [i] of the table. *)
Definition _display_result (result : ComparisonResult) (self : Window)
  : Window :=
  mkWindow (file_a_edit self) (file_b_edit self)
    (only_differences_cb self) (include_attributes_cb self)
    (include_chunking_cb self)
    (compare_btn_enabled self) (progress_bar_visible self)
    ("File A: " ++ file_a_path result ++ " " ++ em_dash ++ " dimensions: "
       ++ dims_str (dimensions_a result) ++ "; variables: "
       ++ PyStr.str_of_int (Z.of_nat (List.length (variables_a result))))
    ("File B: " ++ file_b_path result ++ " " ++ em_dash ++ " dimensions: "
       ++ dims_str (dimensions_b result) ++ "; variables: "
       ++ PyStr.str_of_int (Z.of_nat (List.length (variables_b result))))
    (summary_rows result)
    (String.concat nl (display_lines result))
    (_worker self) (dialogs self).

(** [_on_compare_finished], lines 195-200. *)
Definition _on_compare_finished (result : option ComparisonResult)
  (self : Window) : Window :=
  let self := set_busy true false self in
  match result with
  | None => self
  | Some r => _display_result r self
  end.

(** [_on_compare_error], lines 202-210. *)
Definition _on_compare_error (message : string) (self : Window) : Window :=
  _clear_results
    (show_dialog
       (critical "Comparison error"
          ("An error occurred while comparing the files:" ++ nl ++ nl
             ++ message))
       (set_busy true false self)).

(** The slot that each signal of the worker is connected to. *)
Definition deliver (signal : Signal) (self : Window) : Window :=
  match signal with
  | finished result => _on_compare_finished result self
  | error message => _on_compare_error message self
  end.

End Texts.

End Gui.

(* ===================================================================== *)
(** ** app.py: the runtime check                                          *)
(* ===================================================================== *)

(** What [_check_runtime] meets: the version of the interpreter, the two
    imports ([Some msg]: the import raised, [msg] being [str(e)]), the
    platform, whether lines 80-82 (the import, [QApplication] and
    [QMessageBox.critical] with the title of the source) go through
    ([false]: one of them raised), and what lines 86-92 do ([Some msg]:
    they raised, [msg] being [str(fallback_err)]).

    What the function does to the outside is kept as a list of events in
    the order of the calls: the records handed to [logger], and the one
    text shown.  [Shown Stderr text] is the call
    [print(text, file=sys.stderr)]. *)

Module App.

Record Runtime := mkRuntime {
  version_info : Z * Z;                 (* major, minor *)
  import_ncompare : option string;
  import_QApplication : option string;
  qt_critical : string -> bool;         (* lines 80-82 *)
  platform : string;                    (* sys.platform *)
  MessageBoxW : string -> option string (* lines 86-92 *)
}.

(** Where the message was shown. *)
Inductive Channel := QtDialog | NativeBox | Stderr.

Inductive Event :=
| LogError (message : string)           (* logger.error(message) *)
| LogException (message exc : string)   (* logger.exception(message) while
                                           the exception [exc] is handled *)
| Shown (channel : Channel) (text : string).


Definition min_py : Z * Z := (3, 10).

(** [sys.version_info < min_py]: tuples compare item by item, and the
    longer one is the greater when the shorter is its beginning. *)
Definition version_too_old (v : Z * Z) : bool :=
  (fst v <? fst min_py) || ((fst v =? fst min_py) && (snd v <? snd min_py)).

(** Lines 45-66: the list [errors] and the records logged on the way. *)
Definition checks (rt : Runtime) : list string * list Event :=
  let errors : list string := [] in
  let log : list Event := [] in
  let '(errors, log) :=
    if version_too_old (version_info rt) then
      let msg :=
        "Python " ++ PyStr.str_of_int (fst min_py) ++ "."
          ++ PyStr.str_of_int (snd min_py) ++ " or newer is required; found "
          ++ PyStr.str_of_int (fst (version_info rt)) ++ "."
          ++ PyStr.str_of_int (snd (version_info rt)) ++ "." in
      ((errors ++ [msg])%list, (log ++ [LogError msg])%list)
    else (errors, log) in
  let '(errors, log) :=
    match import_ncompare rt with
    | Some e =>
        let msg := "ncompare: " ++ e in
        ((errors ++ [msg])%list,
         (log ++ [LogException "ncompare import failed" e])%list)
    | None => (errors, log)
    end in
  match import_QApplication rt with
  | Some e =>
      let msg := "PySide6: " ++ e in
      ((errors ++ [msg])%list,
       (log ++ [LogException "PySide6 import failed" e])%list)
  | None => (errors, log)
  end.

Definition errors (rt : Runtime) : list string := fst (checks rt).







End App.

(* ===================================================================== *)
(** ** Vocabulary of the properties                                       *)
(* ===================================================================== *)

Import Models CompareService.

(** The row has the three columns the parser needs. *)
Definition columns_ok (row : Row) : bool :=
  negb (Nat.ltb (List.length row) 3).

Definition info_of (row : Row) : string := PyStr.strip (nth 0 row "").
Definition val_a_of (row : Row) : string := PyStr.strip (nth 1 row "").
Definition val_b_of (row : Row) : string := PyStr.strip (nth 2 row "").

(** The marker of a row: its fourth column stripped, or the empty text. *)
Definition marker_of (row : Row) : string :=
  if Nat.ltb 3 (List.length row) then PyStr.strip (nth 3 row "") else "".

Definition is_detail_row (row : Row) : bool :=
  columns_ok row && String.eqb (marker_of row) "***".

Definition detail_of (row : Row) : Detail :=
  (info_of row, val_a_of row, val_b_of row).

(** One turn of the loop, and the loop, as functions on the locals. *)
Definition step (row : Row) (st : Locals) : Locals := fst (loop_body row st).

Definition run_rows (rows : list Row) (st : Locals) : Locals :=
  fold_left (fun acc row => step row acc) rows st.

Definition summary_of (st : Locals) : Summary :=
  (var_left st, var_right st, var_shared st,
   grp_left st, grp_right st, grp_shared st,
   Z.of_nat (List.length (details st)), details st).

(** The value a shared counter is read from. *)
Definition selected_value (val_a val_b : string) : option Z :=
  if PyStr.isdigit val_a then PyStr.int val_a else PyStr.int val_b.

(** The value a non-shared counter is read from. *)
Definition value_or_zero (v : string) : option Z :=
  if PyStr.isdigit v then PyStr.int v else Some 0.

(** What a [try] block around a shared counter leaves. *)
Definition shared_update (setter : Z -> Locals -> Locals)
  (val_a val_b : string) (st : Locals) : Locals :=
  match selected_value val_a val_b with
  | Some n => setter n st
  | None => st
  end.

(** What a [try] block around a pair of non-shared counters leaves. *)
Definition nonshared_update (set_l set_r : Z -> Locals -> Locals)
  (val_a val_b : string) (st : Locals) : Locals :=
  match value_or_zero val_a with
  | None => st
  | Some l =>
      match value_or_zero val_b with
      | None => set_l l st
      | Some r => set_r r (set_l l st)
      end
  end.

Definition detail_update (row : Row) (st : Locals) : Locals :=
  if is_detail_row row then
    let st' := append_detail (detail_of row) st in
    if counts_as_attribute (info_of row) then incr_attr_diffs st' else st'
  else st.

Definition cond_update (b : bool) (f : Locals -> Locals) (st : Locals) :=
  if b then f st else st.

(** What one turn of the loop does to the locals, block by block. *)
Definition step_spec (row : Row) (st : Locals) : Locals :=
  if columns_ok row then
    let info := info_of row in
    let a := val_a_of row in
    let b := val_b_of row in
    cond_update (PyStr.contains "Total # of non-shared groups" info)
      (nonshared_update set_grp_left set_grp_right a b)
    (cond_update (PyStr.contains "Total # of shared groups" info)
      (shared_update set_grp_shared a b)
    (cond_update (PyStr.contains "Total # of non-shared variables" info)
      (nonshared_update set_var_left set_var_right a b)
    (cond_update (PyStr.contains "Total # of shared variables" info)
      (shared_update set_var_shared a b)
    (detail_update row st))))
  else st.



(** The attribute-difference rows in the words of the description of the
    parser: detail rows whose description is no structural label, or
    contains [attribute] in any letter case. *)
Definition attribute_rows_by_description (rows : list Row) : list Row :=
  filter (fun row =>
            is_detail_row row &&
            (negb (PyStr.in_tuple (info_of row) structural_labels)
             || PyStr.contains "attribute" (PyStr.lower (info_of row))))
         rows.

(** [shape] dimension lengths multiplied together; 1 for the empty shape. *)
Definition product_of_dims (sh : list Z) : Z := fold_right Z.mul 1 sh.

(** The flags of a call are those of the options. *)
Definition flags_forwarded (options : ComparisonOptions)
  (args : CompareArgs) : Prop :=
  only_diffs args = only_differences options /\
  show_chunks args = include_chunking options /\
  show_attributes args = include_attributes options.

(** The text is empty or begins with a character that is no space. *)
Definition no_leading_space (s : string) : bool :=
  match s with
  | EmptyString => true
  | String c _ => negb (PyStr.isspace c)
  end.

(** The row cut to its first four columns, each of them stripped. *)
Definition stripped_row (row : Row) : Row :=
  map PyStr.strip (firstn 4 row).

Definition zero_summary : Summary := (0, 0, 0, 0, 0, 0, 0, []).

(** A header row and one marked row whose description is a structural
    label. *)
Definition dtype_report : list Row :=
  [ ["Info"; "File A"; "File B"; "Marker"];
    ["dtype"; "int32"; "int64"; "***"] ].


Definition non_shared_variables_row (a b : string) : Row :=
  ["Total # of non-shared variables"; a; b; ""].

(** The rule "a value that fails integer parsing leaves the prior value
    unchanged", read for the only-in-A variable counter. *)
Definition unparseable_keeps_only_in_a : Prop :=
  forall (header : Row) (rows : list Row) (row : Row),
    columns_ok row = true ->
    PyStr.int (val_a_of row) = None ->
    exists s s',
      _parse_csv_for_summary_and_diffs (header :: rows) = inr s
      /\ _parse_csv_for_summary_and_diffs (header :: rows ++ [row]) = inr s'
      /\ variables_only_in_a_of s' = variables_only_in_a_of s.


(** SUPERSCRIPT TWO, U+00B2: a digit for [isdigit], no numeral for [int]. *)
Definition superscript_two : string := String (ascii_of_nat 178) EmptyString.

(** *** A stub of the collaborators

    One netCDF file with the root variables [t] of shape [(3, 4)] and
    [scalar] of shape [()], and the same two in the group [g]; the group
    [missing] is listed and cannot be opened.  [ncompare.compare] answers 2
    and leaves the CSV report [dtype_report] and the text report behind. *)
Definition stub_group : Group :=
  mkGroup
    (fun vname =>
       if String.eqb vname "t" then inr (mkVariable (Some [3; 4]))
       else if String.eqb vname "scalar" then inr (mkVariable (Some []))
       else inl KeyError)
    (fun _ => inl KeyError).

Definition stub_dataset : Dataset :=
  mkDataset stub_group
    (fun gname => if String.eqb gname "g" then inr stub_group
                  else inl KeyError)
    (fun _ => inl KeyError).

Definition stub_fs (args : CompareArgs) : FileSystem :=
  mkFS (fun p => inr (String.eqb (path_str p) (file_csv args)
                      || (String.eqb (path_str p) (file_text args)
                          && negb (String.eqb (file_text args) ""))))
       (fun _ => inr dtype_report).

Definition stub_world : World :=
  mkWorld
    mkPath
    (fun p name => mkPath (path_str p ++ "/" ++ name))
    "/tmp"
    "0123456789abcdef0123456789abcdef"
    (fun s => inr (mkPath s))
    (fun p => inr (mkFile p "netcdf"))
    (fun _ => inr [("time", 3); ("lat", 4)])
    (fun _ => inr ["g"; "missing"])
    (fun _ _ => inr ["t"; "scalar"])
    (fun _ => inr stub_dataset)
    (fun _ => inl (OtherError "not an HDF5 file"))
    (fun args => inr (2, stub_fs args)).

(** The fields of a result that the CSV report fills. *)
Definition summary_fields (r : ComparisonResult) : Summary :=
  (variables_only_in_a r, variables_only_in_b r, variables_shared r,
   groups_only_in_a r, groups_only_in_b r, groups_shared r,
   attribute_difference_count r, difference_details r).

(** The fields of a result that neither report touches. *)
Definition other_fields (r : ComparisonResult) :=
  (file_a_path r, file_b_path r, dimensions_a r, dimensions_b r,
   variables_a r, variables_b r, total_differences r).

(** The entry [e] describes a variable of shape [sh]. *)
Definition entry_has_shape (sh : list Z) (e : VarEntry) : Prop :=
  let '(_, shape_str, count) := e in
  shape_str = str_of_tuple sh
  /\ count = product_of_dims sh
  /\ (sh = [] -> count = 1).

(** [grp] is the root of [ds] ([prefix] empty) or the subgroup of [ds]
    named [gname] ([prefix] is [gname/]). *)
Definition group_of_dataset (ds : Dataset) (grp : Group) (prefix : string)
  : Prop :=
  (grp = root ds /\ prefix = "")
  \/ exists gname,
       (groups ds gname = inr grp \/ getitem_group ds gname = inr grp)
       /\ prefix = gname ++ "/".

(** The entry [e] describes a variable that a lookup in a group of [ds]
    gave, under the name of the variable in that group. *)
Definition entry_of_dataset (ds : Dataset) (e : VarEntry) : Prop :=
  exists (grp : Group) (prefix vname : string) (var : NcVariable),
    group_of_dataset ds grp prefix
    /\ (variables grp vname = inr var \/ getitem grp vname = inr var)
    /\ fst (fst e) = prefix ++ vname
    /\ entry_has_shape (shape_of var) e.

(** Options that ask for a text report. *)
Definition stub_options : ComparisonOptions :=
  mkOptions true true false (AsStr "out.txt") (AsStr "").

(** What the stub gives for two files and these options. *)
Definition stub_run : RunState * (exn + ComparisonResult) :=
  Eval cbv in
    run_comparison stub_world "a.nc" "b.nc" stub_options initial_run.

Definition stub_result : ComparisonResult :=
  match snd stub_run with
  | inr r => r
  | inl _ => ComparisonResult_ "" ""
  end.

(** The text report, once the CSV report is dealt with. *)
Definition text_report_recorded (fs : FileSystem) (report_txt : option Path)
  (st : RunState) : RunState :=
  match report_txt with
  | Some p =>
      match exists_ fs p with
      | inr true =>
          mkRun (compare_calls st)
                (set_report_text_path (AsPath p) (result st))
      | _ => st
      end
  | None => st
  end.

(** What looking for the text report raises, if it does. *)
Definition text_report_outcome (fs : FileSystem) (report_txt : option Path)
  : exn + unit :=
  match report_txt with
  | Some p =>
      match exists_ fs p with
      | inl e => inl e
      | inr _ => inr tt
      end
  | None => inr tt
  end.

(** *** Further vocabulary of the parser *)

(** The description of the row contains one of the four texts that name a
    counter. *)
Definition is_total_row (row : Row) : bool :=
  PyStr.contains "Total # of shared variables" (info_of row)
  || PyStr.contains "Total # of non-shared variables" (info_of row)
  || PyStr.contains "Total # of shared groups" (info_of row)
  || PyStr.contains "Total # of non-shared groups" (info_of row).

(** The six counters among the locals. *)
Definition counters_of_locals (st : Locals) : Z * Z * Z * Z * Z * Z :=
  (var_left st, var_right st, var_shared st,
   grp_left st, grp_right st, grp_shared st).

(** The six counters of a summary. *)
Definition counters_of (s : Summary) : Z * Z * Z * Z * Z * Z :=
  (variables_only_in_a_of s, variables_only_in_b_of s, variables_shared_of s,
   groups_only_in_a_of s, groups_only_in_b_of s, groups_shared_of s).

(** A character that [int] finds in its buffer for a text of digits. *)
Definition digit_or_mark (c : ascii) : bool :=
  PyStr.is_decimal c || Ascii.eqb c "?".

(** *** Further vocabulary of the collector *)

(** The file as [opener(file_obj.path, mode="r")] gives it. *)
Definition open_file (w : World) (file_obj : FileToCompare)
  : exn + Dataset :=
  (if String.eqb (type file_obj) "netcdf"
   then netCDF4_Dataset w else h5py_File w) (path file_obj).

(** [grp.variables[vname]] for a netCDF file, [grp[vname]] otherwise. *)
Definition lookup_variable (ty : string) (grp : Group) (vname : string)
  : exn + NcVariable :=
  if String.eqb ty "netcdf" then variables grp vname else getitem grp vname.

(** [ds.groups[gname]] for a netCDF file, [ds[gname]] otherwise. *)
Definition lookup_group (ty : string) (ds : Dataset) (gname : string)
  : exn + Group :=
  if String.eqb ty "netcdf" then groups ds gname else getitem_group ds gname.

(** The entry appended for the variable [var] under the name [name]. *)
Definition entry_for (name : string) (var : NcVariable) : VarEntry :=
  (name, str_of_tuple (shape_of var), point_count (shape_of var)).

(** The entries of the variables [found] (name and variable) of a group. *)
Definition entries_of (name_of : string -> string)
  (found : list (string * NcVariable)) : list VarEntry :=
  map (fun nv => entry_for (name_of (fst nv)) (snd nv)) found.

(** Each name of [found] is looked up in [grp] with the variable beside
    it. *)
Definition all_found (ty : string) (grp : Group)
  (found : list (string * NcVariable)) : Prop :=
  Forall (fun nv => lookup_variable ty grp (fst nv) = inr (snd nv)) found.

(** The list [st] is [st0] with entries appended. *)
Definition extends (st0 st : list VarEntry) : Prop :=
  exists es, st = (st0 ++ es)%list.

(** What is done for one subgroup, lines 47-59. *)
Definition subgroup_body (w : World) (ty : string) (ds : Dataset)
  (gname : string) : Stmt (list VarEntry) unit :=
  try_except
    (grp <- lift (lookup_group ty ds gname) ;;
     collect_group w ty grp (fun vname => gname ++ "/" ++ vname))
    is_KeyError_or_TypeError
    (ret tt).

(** The world [w] where [get_root_groups] answers [answer]. *)
Definition with_root_groups (w : World)
  (answer : FileToCompare -> exn + list string) : World :=
  mkWorld (Path_ w) (path_join w) (gettempdir w) (uuid4_hex w)
    (ensure_valid_path_exists w) (validate_file_type w) (get_root_dims w)
    answer (get_variables w) (netCDF4_Dataset w) (h5py_File w)
    (ncompare_compare w).

(** The stub where the root lists a variable [gone] that is not there. *)
Definition stub_world_root_gone : World :=
  mkWorld (Path_ stub_world) (path_join stub_world) (gettempdir stub_world)
    (uuid4_hex stub_world) (ensure_valid_path_exists stub_world)
    (validate_file_type stub_world) (get_root_dims stub_world)
    (get_root_groups stub_world)
    (fun _ _ => inr ["t"; "gone"; "scalar"])
    (netCDF4_Dataset stub_world) (h5py_File stub_world)
    (ncompare_compare stub_world).

Definition stub_file : FileToCompare := mkFile (mkPath "a.nc") "netcdf".

(** *** Further vocabulary of the orchestrator *)

(** What lines 139-153 gather before the comparison is called. *)
Definition Prepared : Type :=
  (Path * Path * list Dim * list Dim * list VarEntry * list VarEntry)%type.

(** The eight preparatory calls of lines 139-153, in their order, up to the
    first that raises. *)
Definition prepare (w : World) (file_a file_b : string) : exn + Prepared :=
  match ensure_valid_path_exists w file_a with
  | inl e => inl e
  | inr path_a =>
  match ensure_valid_path_exists w file_b with
  | inl e => inl e
  | inr path_b =>
  match validate_file_type w path_a with
  | inl e => inl e
  | inr file_a_obj =>
  match validate_file_type w path_b with
  | inl e => inl e
  | inr file_b_obj =>
  match _dimensions_list w file_a_obj with
  | inl e => inl e
  | inr da =>
  match _dimensions_list w file_b_obj with
  | inl e => inl e
  | inr db =>
  match _collect_variables_with_shapes w file_a_obj with
  | inl e => inl e
  | inr va =>
  match _collect_variables_with_shapes w file_b_obj with
  | inl e => inl e
  | inr vb => inr (path_a, path_b, da, db, va, vb)
  end end end end end end end end.

(** The two report destinations of lines 156-160. *)
Definition text_destination (w : World) (options : ComparisonOptions)
  : option Path :=
  optional_path w (opt_report_text_path options).

Definition report_destination (w : World) (options : ComparisonOptions)
  : option Path :=
  csv_destination w (optional_path w (opt_report_csv_path options)).

(** The call that a run makes once [prepare] gave [p]. *)
Definition call_for (w : World) (options : ComparisonOptions) (p : Prepared)
  : CompareArgs :=
  let '(path_a, path_b, _, _, _, _) := p in
  compare_args path_a path_b options (text_destination w options)
    (report_destination w options).

(** The temporary file of line 160. *)
Definition temporary_csv (w : World) : Path :=
  path_join w (Path_ w (gettempdir w))
    ("ncompare_" ++ substring 0 8 (uuid4_hex w) ++ ".csv").

(** The result object as it stands when the comparison is called. *)
Definition prepared_result (p : Prepared) : ComparisonResult :=
  let '(path_a, path_b, da, db, va, vb) := p in
  set_variables_b vb
    (set_variables_a va
       (set_dimensions_b db
          (set_dimensions_a da
             (ComparisonResult_ (path_str path_a) (path_str path_b))))).

(** Lines 174-190. *)
Definition finish (total : Z) (fs : FileSystem)
  (report_csv report_txt : option Path) : Stmt RunState ComparisonResult :=
  assign (set_total_differences total) ;;;
  merge_csv_report fs report_csv ;;;
  record_text_report fs report_txt ;;;
  st <- get ;;
  ret (result st).

(** The stub where the CSV report is missing and looking for the text
    report raises. *)
Definition stub_world_name_too_long : World :=
  mkWorld (Path_ stub_world) (path_join stub_world) (gettempdir stub_world)
    (uuid4_hex stub_world) (ensure_valid_path_exists stub_world)
    (validate_file_type stub_world) (get_root_dims stub_world)
    (get_root_groups stub_world) (get_variables stub_world)
    (netCDF4_Dataset stub_world) (h5py_File stub_world)
    (fun args =>
       inr (0, mkFS (fun p => if String.eqb (path_str p) (file_csv args)
                              then inr false
                              else inl (OtherError "File name too long"))
                    (fun _ => inr []))).

(** The stub where the CSV report is there and cannot be read. *)
Definition stub_world_csv_unreadable : World :=
  mkWorld (Path_ stub_world) (path_join stub_world) (gettempdir stub_world)
    (uuid4_hex stub_world) (ensure_valid_path_exists stub_world)
    (validate_file_type stub_world) (get_root_dims stub_world)
    (get_root_groups stub_world) (get_variables stub_world)
    (netCDF4_Dataset stub_world) (h5py_File stub_world)
    (fun _ => inr (0, mkFS (fun _ => inr true)
                           (fun _ => inl (OtherError "permission denied")))).

(** *** Vocabulary of the window *)

(** The row of the summary table for one variable. *)
Definition table_row (source : string) (v : VarEntry) : Gui.TableRow :=
  (source, fst (fst v), snd (fst v), PyStr.str_of_int (snd v)).

(** The lines about the details in the text panel: a heading, the first
    [cap] details, and the count of the others when there are more. *)
Definition detail_part (repr : string -> string) (cap : nat)
  (ds : list Detail) : list string :=
  let more :=
    "  ... and "
      ++ PyStr.str_of_int (Z.of_nat (List.length ds) - Z.of_nat cap)
      ++ " more." in
  match ds with
  | [] => []
  | _ =>
      (("--- Detail ---" :: map (Gui.detail_line repr) (firstn cap ds))
       ++ (if Nat.ltb cap (List.length ds) then [more] else []))%list
  end.

(** The lines about the reports in the text panel. *)
Definition report_part (r : ComparisonResult) : list string :=
  let csv_line :=
    Gui.nl ++ "Report (CSV): " ++ Gui.str_of_path (report_csv_path r) in
  let text_line :=
    "Report (text): " ++ Gui.str_of_path (report_text_path r) in
  ((if truthy (report_csv_path r) then [csv_line] else [])
   ++ (if truthy (report_text_path r) then [text_line] else []))%list.

(** The options that [_on_compare] builds. *)
Definition options_of_window (self : Gui.Window) : ComparisonOptions :=
  mkOptions (Gui.only_differences_cb self) (Gui.include_attributes_cb self)
    (Gui.include_chunking_cb self) (AsStr "") (AsStr "").

(** One of the two paths of the window is blank. *)
Definition path_missing (self : Gui.Window) : bool :=
  String.eqb (PyStr.strip (Gui.file_a_edit self)) ""
  || String.eqb (PyStr.strip (Gui.file_b_edit self)) "".

(** A window with two paths chosen. *)
Definition stub_window : Gui.Window :=
  Gui.mkWindow " a.nc" "b.nc " true true false true false
    "File A: (no comparison yet)" "File B: (no comparison yet)"
    [] "" None [].

(** *** Vocabulary of the runtime check *)




(* ===================================================================== *)
(** ** The loop body as a function                                        *)
(* ===================================================================== *)

Section Statements.
Context {S : Type}.

Lemma bind_completes (m : Stmt S unit) (k : Stmt S unit) st st' :
  m st = (st', inr tt) -> (m ;;; k) st = k st'.
Proof. intros H. unfold bind. now rewrite H. Qed.

Lemma when_run (b : bool) (f : S -> S) st :
  when b (modify f) st = ((if b then f st else st), inr tt).
Proof. now destruct b. Qed.

Lemma for_each_completes (A : Type) (body : A -> Stmt S unit)
  (f : A -> S -> S) :
  (forall x st, body x st = (f x st, inr tt)) ->
  forall xs st,
    for_each xs body st = (fold_left (fun acc x => f x acc) xs st, inr tt).
Proof.
  intros Hbody xs. induction xs as [|x xs IH]; intros st; simpl.
  - reflexivity.
  - rewrite (bind_completes _ _ _ _ (Hbody x st)). apply IH.
Qed.
End Statements.

Lemma shared_block_run setter val_a val_b b st :
  when b (try_except
            (n <- prefer_a val_a val_b ;; modify (setter n))
            is_ValueError (ret tt)) st
  = (cond_update b (shared_update setter val_a val_b) st, inr tt).
Proof.
  destruct b; simpl; [|reflexivity].
  unfold try_except, bind, prefer_a, int_, shared_update, selected_value.
  destruct (PyStr.isdigit val_a).
  - destruct (PyStr.int val_a); reflexivity.
  - destruct (PyStr.int val_b); reflexivity.
Qed.

Lemma nonshared_block_run set_l set_r val_a val_b b st :
  when b (try_except
            (l <- digits_or_zero val_a ;; modify (set_l l) ;;;
             r <- digits_or_zero val_b ;; modify (set_r r))
            is_ValueError (ret tt)) st
  = (cond_update b (nonshared_update set_l set_r val_a val_b) st, inr tt).
Proof.
  destruct b; simpl; [|reflexivity].
  unfold try_except, bind, digits_or_zero, int_, nonshared_update,
    value_or_zero.
  destruct (PyStr.isdigit val_a), (PyStr.isdigit val_b);
    try destruct (PyStr.int val_a); try destruct (PyStr.int val_b);
    reflexivity.
Qed.

Lemma detail_block_run (marker info val_a val_b : string) st :
  when (String.eqb marker "***")
    (modify (append_detail (info, val_a, val_b)) ;;;
     when (counts_as_attribute info) (modify incr_attr_diffs)) st
  = ((if String.eqb marker "***" then
        let st' := append_detail (info, val_a, val_b) st in
        if counts_as_attribute info then incr_attr_diffs st' else st'
      else st), inr tt).
Proof.
  destruct (String.eqb marker "***"); simpl; [|reflexivity].
  unfold bind, modify. simpl. now destruct (counts_as_attribute info).
Qed.

(** The loop body never raises. *)
Lemma loop_body_run row st : loop_body row st = (step_spec row st, inr tt).
Proof.
  unfold loop_body, step_spec, columns_ok, detail_update, is_detail_row,
    columns_ok, marker_of, info_of, val_a_of, val_b_of, detail_of.
  destruct (Nat.ltb (List.length row) 3); simpl; [reflexivity|].
  erewrite bind_completes by apply detail_block_run.
  erewrite bind_completes by apply shared_block_run.
  erewrite bind_completes by apply nonshared_block_run.
  erewrite bind_completes by apply shared_block_run.
  rewrite nonshared_block_run. reflexivity.
Qed.

Lemma step_eq row st : step row st = step_spec row st.
Proof. unfold step. now rewrite loop_body_run. Qed.

Lemma parse_run rows :
  _parse_csv_for_summary_and_diffs rows
  = inr (summary_of (run_rows (tl rows) initial_locals)).
Proof.
  unfold _parse_csv_for_summary_and_diffs, run_rows.
  rewrite (for_each_completes _ loop_body step).
  - reflexivity.
  - intros row st. now rewrite step_eq, loop_body_run.
Qed.

(* ===================================================================== *)
(** ** Field by field: what one row does                                  *)
(* ===================================================================== *)

Ltac split_updates :=
  unfold step_spec, cond_update, shared_update, nonshared_update,
    detail_update;
  repeat match goal with
         | |- context [if ?b then _ else _] => destruct b eqn:?
         | |- context [match ?x with Some _ => _ | None => _ end] =>
             destruct x eqn:?
         end;
  simpl; try reflexivity; try discriminate; try congruence.

Lemma step_details row st :
  details (step row st)
  = (details st ++ if is_detail_row row then [detail_of row] else [])%list.
Proof.
  rewrite step_eq. unfold is_detail_row.
  destruct (columns_ok row) eqn:Hc.
  - unfold step_spec. rewrite Hc.
    unfold detail_update, is_detail_row. rewrite Hc. simpl.
    split_updates; now rewrite ?app_nil_r.
  - unfold step_spec. rewrite Hc. simpl. now rewrite app_nil_r.
Qed.

Lemma step_attr_diffs row st :
  attr_diffs (step row st)
  = attr_diffs st
    + if is_detail_row row && counts_as_attribute (info_of row)
      then 1 else 0.
Proof.
  rewrite step_eq. unfold step_spec.
  destruct (columns_ok row) eqn:Hc.
  - unfold detail_update.
    destruct (is_detail_row row); simpl;
      [destruct (counts_as_attribute (info_of row))|];
      split_updates; lia.
  - unfold is_detail_row. rewrite Hc. simpl. lia.
Qed.

Lemma step_var_shared row st :
  var_shared (step row st)
  = if columns_ok row
       && PyStr.contains "Total # of shared variables" (info_of row)
    then match selected_value (val_a_of row) (val_b_of row) with
         | Some n => n
         | None => var_shared st
         end
    else var_shared st.
Proof.
  rewrite step_eq. unfold step_spec.
  destruct (columns_ok row); simpl; [|reflexivity].
  unfold detail_update.
  destruct (is_detail_row row); simpl;
    [destruct (counts_as_attribute (info_of row))|];
    split_updates.
Qed.

Lemma step_grp_shared row st :
  grp_shared (step row st)
  = if columns_ok row
       && PyStr.contains "Total # of shared groups" (info_of row)
    then match selected_value (val_a_of row) (val_b_of row) with
         | Some n => n
         | None => grp_shared st
         end
    else grp_shared st.
Proof.
  rewrite step_eq. unfold step_spec.
  destruct (columns_ok row); simpl; [|reflexivity].
  unfold detail_update.
  destruct (is_detail_row row); simpl;
    [destruct (counts_as_attribute (info_of row))|];
    split_updates.
Qed.

Lemma step_var_left row st :
  var_left (step row st)
  = if columns_ok row
       && PyStr.contains "Total # of non-shared variables" (info_of row)
    then match value_or_zero (val_a_of row) with
         | Some l => l
         | None => var_left st
         end
    else var_left st.
Proof.
  rewrite step_eq. unfold step_spec.
  destruct (columns_ok row); simpl; [|reflexivity].
  unfold detail_update.
  destruct (is_detail_row row); simpl;
    [destruct (counts_as_attribute (info_of row))|];
    split_updates.
Qed.

Lemma step_var_right row st :
  var_right (step row st)
  = if columns_ok row
       && PyStr.contains "Total # of non-shared variables" (info_of row)
    then match value_or_zero (val_a_of row), value_or_zero (val_b_of row)
         with
         | Some _, Some r => r
         | _, _ => var_right st
         end
    else var_right st.
Proof.
  rewrite step_eq. unfold step_spec.
  destruct (columns_ok row); simpl; [|reflexivity].
  unfold detail_update.
  destruct (is_detail_row row); simpl;
    [destruct (counts_as_attribute (info_of row))|];
    split_updates.
Qed.

Lemma step_grp_left row st :
  grp_left (step row st)
  = if columns_ok row
       && PyStr.contains "Total # of non-shared groups" (info_of row)
    then match value_or_zero (val_a_of row) with
         | Some l => l
         | None => grp_left st
         end
    else grp_left st.
Proof.
  rewrite step_eq. unfold step_spec.
  destruct (columns_ok row); simpl; [|reflexivity].
  unfold detail_update.
  destruct (is_detail_row row); simpl;
    [destruct (counts_as_attribute (info_of row))|];
    split_updates.
Qed.

Lemma step_grp_right row st :
  grp_right (step row st)
  = if columns_ok row
       && PyStr.contains "Total # of non-shared groups" (info_of row)
    then match value_or_zero (val_a_of row), value_or_zero (val_b_of row)
         with
         | Some _, Some r => r
         | _, _ => grp_right st
         end
    else grp_right st.
Proof.
  rewrite step_eq. unfold step_spec.
  destruct (columns_ok row); simpl; [|reflexivity].
  unfold detail_update.
  destruct (is_detail_row row); simpl;
    [destruct (counts_as_attribute (info_of row))|];
    split_updates.
Qed.

(* ===================================================================== *)
(** ** The whole loop                                                     *)
(* ===================================================================== *)

Lemma run_rows_snoc rows row st :
  run_rows (rows ++ [row]) st = step row (run_rows rows st).
Proof. unfold run_rows. now rewrite fold_left_app. Qed.

Lemma run_rows_app rows1 rows2 st :
  run_rows (rows1 ++ rows2) st = run_rows rows2 (run_rows rows1 st).
Proof. unfold run_rows. now rewrite fold_left_app. Qed.

Lemma step_short_row row st : columns_ok row = false -> step row st = st.
Proof. intros H. rewrite step_eq. unfold step_spec. now rewrite H. Qed.

Lemma run_rows_details rows : forall st,
  details (run_rows rows st)
  = (details st ++ map detail_of (filter is_detail_row rows))%list.
Proof.
  induction rows as [|row rows IH]; intros st; simpl.
  - now rewrite app_nil_r.
  - change (run_rows (row :: rows) st) with (run_rows rows (step row st)).
    rewrite IH, step_details.
    destruct (is_detail_row row); simpl.
    + now rewrite <- app_assoc.
    + now rewrite app_nil_r.
Qed.

(** The local counter [attr_diffs] does count the rows of the description;
    it is the value returned in its place that differs. *)
Lemma run_rows_attr_diffs rows : forall st,
  attr_diffs (run_rows rows st)
  = attr_diffs st
    + Z.of_nat (List.length (attribute_rows_by_description rows)).
Proof.
  induction rows as [|row rows IH]; intros st; simpl.
  - lia.
  - change (run_rows (row :: rows) st) with (run_rows rows (step row st)).
    rewrite IH, step_attr_diffs. unfold counts_as_attribute.
    rewrite (orb_comm (negb _)).
    destruct (is_detail_row row && _); simpl List.length; lia.
Qed.

Lemma filter_length_le {A} (p : A -> bool) (l : list A) :
  (List.length (filter p l) <= List.length l)%nat.
Proof.
  induction l as [|x l IH]; simpl; [lia|].
  destruct (p x); simpl; lia.
Qed.

(* ===================================================================== *)
(** ** [str.strip]                                                        *)
(* ===================================================================== *)

Lemma lstrip_no_leading_space s : no_leading_space (PyStr.lstrip s) = true.
Proof.
  induction s as [|c s IH]; simpl; [reflexivity|].
  destruct (PyStr.isspace c) eqn:Hc; [assumption|].
  simpl. now rewrite Hc.
Qed.

Lemma lstrip_fixed s : no_leading_space s = true -> PyStr.lstrip s = s.
Proof.
  destruct s as [|c s]; simpl; [reflexivity|].
  now destruct (PyStr.isspace c).
Qed.

Lemma rstrip_no_leading_space s :
  no_leading_space s = true -> no_leading_space (PyStr.rstrip s) = true.
Proof.
  destruct s as [|c s]; simpl; [reflexivity|].
  intros Hc. destruct (PyStr.rstrip s); simpl.
  - destruct (PyStr.isspace c) eqn:E; [discriminate|]. simpl. now rewrite E.
  - assumption.
Qed.

Lemma rstrip_idempotent s : PyStr.rstrip (PyStr.rstrip s) = PyStr.rstrip s.
Proof.
  induction s as [|c s IH]; simpl; [reflexivity|].
  destruct (PyStr.rstrip s) as [|d r] eqn:Hr.
  - destruct (PyStr.isspace c) eqn:Hc; simpl; [reflexivity|].
    now rewrite Hc.
  - change (PyStr.rstrip (String c (String d r)))
      with (match PyStr.rstrip (String d r) with
            | EmptyString =>
                if PyStr.isspace c then EmptyString else String c EmptyString
            | r' => String c r'
            end).
    now rewrite IH.
Qed.

Lemma strip_idempotent s : PyStr.strip (PyStr.strip s) = PyStr.strip s.
Proof.
  unfold PyStr.strip.
  rewrite (lstrip_fixed (PyStr.rstrip (PyStr.lstrip s))).
  - apply rstrip_idempotent.
  - apply rstrip_no_leading_space, lstrip_no_leading_space.
Qed.

Lemma step_spec_stripped row st :
  step_spec (stripped_row row) st = step_spec row st.
Proof.
  unfold step_spec, detail_update, is_detail_row, detail_of, columns_ok,
    marker_of, info_of, val_a_of, val_b_of, stripped_row.
  destruct row as [|c0 [|c1 [|c2 [|c3 rest]]]]; simpl; try reflexivity;
    now rewrite !strip_idempotent.
Qed.

(* ===================================================================== *)
(** ** Properties of the CSV difference parser                            *)
(* ===================================================================== *)

(** C1. On the report [dtype_report] the parser returns the
    attribute-difference count 1, while no row of it is an attribute row of
    the description ([dtype] is a structural label and does not contain
    [attribute]); the local counter [attr_diffs] is 0 there, and it is
    [len(details)] that is returned in its place. *)
Theorem returned_attribute_count_on_dtype_report :
  _parse_csv_for_summary_and_diffs dtype_report
  = inr (0, 0, 0, 0, 0, 0, 1, [("dtype", "int32", "int64")])
  /\ List.length (attribute_rows_by_description (tl dtype_report)) = 0%nat
  /\ attr_diffs (run_rows (tl dtype_report) initial_locals) = 0.
Proof. repeat split; vm_compute; reflexivity. Qed.

(** C2. For every CSV input the parser returns, and the attribute-difference
    count it returns is the length of the detail-row list it returns; so it
    is never above the number of detail rows, whatever their descriptions. *)
Theorem attribute_count_is_detail_count (rows : list Row) :
  exists s,
    _parse_csv_for_summary_and_diffs rows = inr s
    /\ attribute_difference_count_of s
       = Z.of_nat (List.length (difference_details_of s))
    /\ attribute_difference_count_of s
       <= Z.of_nat (List.length (difference_details_of s)).
Proof.
  exists (summary_of (run_rows (tl rows) initial_locals)).
  rewrite parse_run. simpl. repeat split; lia.
Qed.

(** C4. For every CSV input the detail-row list is made, in file order, of
    exactly the data rows (the rows after the header that have at least
    three columns) whose marker column is the token [***]; it is no longer
    than the list of data rows; and no row is at once without a fourth
    column and a detail row. *)
Theorem details_are_the_marked_rows (rows : list Row) :
  exists s,
    _parse_csv_for_summary_and_diffs rows = inr s
    /\ difference_details_of s
       = map detail_of (filter is_detail_row (tl rows))
    /\ (List.length (difference_details_of s) <= List.length (tl rows))%nat
    /\ (forall row : Row,
          Nat.leb (List.length row) 3 && is_detail_row row = false).
Proof.
  exists (summary_of (run_rows (tl rows) initial_locals)).
  rewrite parse_run. simpl. rewrite run_rows_details. simpl.
  repeat split.
  - rewrite length_map. apply filter_length_le.
  - intros row. unfold is_detail_row, marker_of, columns_ok.
    destruct row as [|c0 [|c1 [|c2 [|c3 rest]]]]; reflexivity.
Qed.

(** C6. A CSV input with no row at all, or with a header row only, gives
    seven counters equal to 0 and no detail row; and a data row with fewer
    than three columns changes nothing: the parser returns the same with
    the row as without it. *)
Theorem header_only_and_short_rows :
  _parse_csv_for_summary_and_diffs [] = inr zero_summary
  /\ (forall header : Row,
        _parse_csv_for_summary_and_diffs [header] = inr zero_summary)
  /\ (forall (header : Row) (before after : list Row) (row : Row),
        (List.length row < 3)%nat ->
        _parse_csv_for_summary_and_diffs (header :: before ++ row :: after)
        = _parse_csv_for_summary_and_diffs (header :: before ++ after)).
Proof.
  repeat split; try reflexivity.
  intros header before after row Hshort.
  rewrite !parse_run. simpl tl. rewrite !run_rows_app.
  change (run_rows (row :: after) ?st) with (run_rows after (step row st)).
  rewrite step_short_row; [reflexivity|].
  unfold columns_ok. apply negb_false_iff, Nat.ltb_lt, Hshort.
Qed.

Lemma header_only_and_short_rows_witness :
  _parse_csv_for_summary_and_diffs
    (["Info"; "A"; "B"] :: [["x"; "1"; "2"; "***"]] ++ ["y"; "3"] :: [])
  = _parse_csv_for_summary_and_diffs
      (["Info"; "A"; "B"] :: [["x"; "1"; "2"; "***"]] ++ []).
Proof. apply header_only_and_short_rows. simpl. lia. Defined.

(** C10. The parser strips the description, value_a, value_b and marker
    columns before it compares or stores them: it returns the same on the
    rows as on the rows with these four columns stripped; the stored detail
    rows hold the stripped texts; and a marker column [ *** ], blanks
    around the token, makes a detail row. *)
Theorem columns_are_stripped (header : Row) (rows : list Row) :
  exists s,
    _parse_csv_for_summary_and_diffs (header :: rows) = inr s
    /\ _parse_csv_for_summary_and_diffs (header :: map stripped_row rows)
       = inr s
    /\ difference_details_of s
       = map (fun row => (PyStr.strip (nth 0 row ""),
                          PyStr.strip (nth 1 row ""),
                          PyStr.strip (nth 2 row "")))
             (filter is_detail_row rows)
    /\ (forall d a b : string,
          exists s',
            _parse_csv_for_summary_and_diffs [header; [d; a; b; " *** "]]
            = inr s'
            /\ difference_details_of s'
               = [(PyStr.strip d, PyStr.strip a, PyStr.strip b)]).
Proof.
  exists (summary_of (run_rows rows initial_locals)).
  rewrite !parse_run. simpl tl. repeat split.
  - f_equal. f_equal. generalize initial_locals.
    induction rows as [|row rows IH]; intros st; [reflexivity|].
    simpl map.
    change (run_rows (?r :: ?rs) st) with (run_rows rs (step r st)).
    rewrite !step_eq, step_spec_stripped. apply IH.
  - simpl. now rewrite run_rows_details.
  - intros d a b. eexists. rewrite parse_run. split; [reflexivity|].
    change (difference_details_of (summary_of ?st)) with (details st).
    rewrite run_rows_details. reflexivity.
Qed.

(* ===================================================================== *)
(** ** Texts of decimal digits                                            *)
(* ===================================================================== *)







(* ===================================================================== *)
(** ** The summary counters                                               *)
(* ===================================================================== *)

Lemma parse_last_row header rows row :
  _parse_csv_for_summary_and_diffs (header :: rows ++ [row])
  = inr (summary_of (step row (run_rows rows initial_locals))).
Proof. rewrite parse_run. simpl tl. now rewrite run_rows_snoc. Qed.

Lemma parse_rows header rows :
  _parse_csv_for_summary_and_diffs (header :: rows)
  = inr (summary_of (run_rows rows initial_locals)).
Proof. now rewrite parse_run. Qed.

(** C3, as stated, fails: after the row
    [("Total # of non-shared variables", "3", "2", "")], the row
    [("Total # of non-shared variables", "x", "y", "")], whose value_a
    fails integer parsing, sets the only-in-A counter to 0; the prior
    value 3 is not kept. *)
Lemma non_shared_unparseable_resets : ~ unparseable_keeps_only_in_a.
Proof.
  intros H.
  destruct (H ["Info"; "A"; "B"; "M"] [non_shared_variables_row "3" "2"]
              (non_shared_variables_row "x" "y") eq_refl eq_refl)
    as (s & s' & Hs & Hs' & Heq).
  vm_compute in Hs, Hs'.
  injection Hs as <-. injection Hs' as <-. discriminate Heq.
Qed.

(** C3, amended. The parser returns on every input: no malformed numeric
    text makes it raise.  When a row is added at the end of the file:
    - if the value a shared counter is read from (value_a when it is all
      digits, value_b otherwise) fails integer parsing, the two shared
      counters keep their prior values;
    - if value_a is all digits and yet fails integer parsing, the four
      non-shared counters keep their prior values, and if value_b is so,
      the two only-in-B counters keep theirs;
    - but if the row has a non-shared description and value_a is not all
      digits, the only-in-A counter becomes 0, whatever it was (and the
      only-in-B counter likewise for value_b, when value_a did not stop
      the assignment). *)
Theorem unparseable_values_and_counters
  (header : Row) (rows : list Row) (row : Row) :
  let a := val_a_of row in
  let b := val_b_of row in
  exists s s',
    _parse_csv_for_summary_and_diffs (header :: rows) = inr s
    /\ _parse_csv_for_summary_and_diffs (header :: rows ++ [row]) = inr s'
    /\ (selected_value a b = None ->
        variables_shared_of s' = variables_shared_of s
        /\ groups_shared_of s' = groups_shared_of s)
    /\ (value_or_zero a = None ->
        variables_only_in_a_of s' = variables_only_in_a_of s
        /\ variables_only_in_b_of s' = variables_only_in_b_of s
        /\ groups_only_in_a_of s' = groups_only_in_a_of s
        /\ groups_only_in_b_of s' = groups_only_in_b_of s)
    /\ (value_or_zero b = None ->
        variables_only_in_b_of s' = variables_only_in_b_of s
        /\ groups_only_in_b_of s' = groups_only_in_b_of s)
    /\ (columns_ok row = true ->
        PyStr.contains "Total # of non-shared variables" (info_of row)
        = true ->
        (PyStr.isdigit a = false -> variables_only_in_a_of s' = 0)
        /\ (PyStr.isdigit b = false -> value_or_zero a <> None ->
            variables_only_in_b_of s' = 0))
    /\ (columns_ok row = true ->
        PyStr.contains "Total # of non-shared groups" (info_of row) = true ->
        (PyStr.isdigit a = false -> groups_only_in_a_of s' = 0)
        /\ (PyStr.isdigit b = false -> value_or_zero a <> None ->
            groups_only_in_b_of s' = 0)).
Proof.
  intros a b. do 2 eexists.
  split; [apply parse_rows|]. split; [apply parse_last_row|].
  unfold variables_shared_of, groups_shared_of, variables_only_in_a_of,
    variables_only_in_b_of, groups_only_in_a_of, groups_only_in_b_of,
    summary_of.
  rewrite step_var_shared, step_grp_shared, step_var_left, step_var_right,
    step_grp_left, step_grp_right.
  fold a b. repeat split.
  - rewrite H. now destruct (_ && _).
  - rewrite H. now destruct (_ && _).
  - rewrite H. now destruct (_ && _).
  - rewrite H. now destruct (_ && _).
  - rewrite H. now destruct (_ && _).
  - rewrite H. now destruct (_ && _).
  - rewrite H. destruct (_ && _); [|reflexivity].
    now destruct (value_or_zero a).
  - rewrite H. destruct (_ && _); [|reflexivity].
    now destruct (value_or_zero a).
  - intros Ha. rewrite H, H0. simpl. unfold value_or_zero. now rewrite Ha.
  - intros Hb Hna. rewrite H, H0. simpl.
    destruct (value_or_zero a); [|congruence].
    unfold value_or_zero. now rewrite Hb.
  - intros Ha. rewrite H, H0. simpl. unfold value_or_zero. now rewrite Ha.
  - intros Hb Hna. rewrite H, H0. simpl.
    destruct (value_or_zero a); [|congruence].
    unfold value_or_zero. now rewrite Hb.
Qed.

Lemma unparseable_values_and_counters_witness :
  (exists s s',
      _parse_csv_for_summary_and_diffs
        [["Info"; "A"; "B"; "M"]; ["Total # of shared variables"; "5"; ""]]
      = inr s
      /\ _parse_csv_for_summary_and_diffs
           (["Info"; "A"; "B"; "M"]
              :: [["Total # of shared variables"; "5"; ""]]
              ++ [["Total # of shared variables, Total # of non-shared variables, Total # of non-shared groups"; "x"; "y"]])
         = inr s'
      /\ variables_shared_of s' = variables_shared_of s
      /\ variables_only_in_a_of s' = 0 /\ variables_only_in_b_of s' = 0
      /\ groups_only_in_a_of s' = 0 /\ groups_only_in_b_of s' = 0)
  /\ (exists s s',
         _parse_csv_for_summary_and_diffs
           [["Info"; "A"; "B"; "M"]; non_shared_variables_row "3" "2"]
         = inr s
         /\ _parse_csv_for_summary_and_diffs
              (["Info"; "A"; "B"; "M"]
                 :: [non_shared_variables_row "3" "2"]
                 ++ [non_shared_variables_row superscript_two
                       superscript_two])
            = inr s'
         /\ variables_only_in_a_of s' = variables_only_in_a_of s
         /\ variables_only_in_b_of s' = variables_only_in_b_of s).
Proof.
  split.
  - destruct (unparseable_values_and_counters ["Info"; "A"; "B"; "M"]
                [["Total # of shared variables"; "5"; ""]]
                ["Total # of shared variables, Total # of non-shared variables, Total # of non-shared groups"; "x"; "y"])
      as (s & s' & Hs & Hs' & Hshared & _ & _ & Hvars & Hgroups).
    exists s, s'. split; [exact Hs|]. split; [exact Hs'|].
    split; [apply Hshared; reflexivity|].
    destruct (Hvars eq_refl eq_refl) as [Ha Hb].
    destruct (Hgroups eq_refl eq_refl) as [Hga Hgb].
    repeat split.
    + apply Ha. reflexivity.
    + apply Hb; [reflexivity | discriminate].
    + apply Hga. reflexivity.
    + apply Hgb; [reflexivity | discriminate].
  - destruct (unparseable_values_and_counters ["Info"; "A"; "B"; "M"]
                [non_shared_variables_row "3" "2"]
                (non_shared_variables_row superscript_two superscript_two))
      as (s & s' & Hs & Hs' & _ & Ha & Hb & _).
    exists s, s'. split; [exact Hs|]. split; [exact Hs'|].
    split; [apply Ha; reflexivity | apply Hb; reflexivity].
Defined.




(* ===================================================================== *)
(** ** The per-file variable list                                         *)
(* ===================================================================== *)

Section Invariants.
Context {S : Type} (I : S -> Prop).

Lemma bind_preserves {A B} (m : Stmt S A) (k : A -> Stmt S B) :
  (forall st, I st -> I (fst (m st))) ->
  (forall a st, I st -> I (fst (k a st))) ->
  forall st, I st -> I (fst ((x <- m ;; k x) st)).
Proof.
  intros Hm Hk st Hst. unfold bind.
  specialize (Hm st Hst). destruct (m st) as [st' [e | a]]; simpl in *.
  - assumption.
  - now apply Hk.
Qed.

Lemma lift_preserves {A} (r : exn + A) :
  forall st, I st -> I (fst (lift r st)).
Proof. intros st Hst. exact Hst. Qed.

Lemma ret_preserves {A} (a : A) :
  forall st, I st -> I (fst (ret a st)).
Proof. intros st Hst. exact Hst. Qed.

Lemma for_each_preserves {A} (body : A -> Stmt S unit) :
  (forall x st, I st -> I (fst (body x st))) ->
  forall xs st, I st -> I (fst (for_each xs body st)).
Proof.
  intros Hbody xs. induction xs as [|x xs IH]; intros st Hst; simpl.
  - exact Hst.
  - apply bind_preserves; auto.
Qed.

Lemma try_except_preserves (body handler : Stmt S unit) handled :
  (forall st, I st -> I (fst (body st))) ->
  (forall st, I st -> I (fst (handler st))) ->
  forall st, I st -> I (fst (try_except body handled handler st)).
Proof.
  intros Hb Hh st Hst. unfold try_except.
  specialize (Hb st Hst). destruct (body st) as [st' [e | []]]; simpl in *.
  - destruct (handled e); [now apply Hh | assumption].
  - assumption.
Qed.
End Invariants.

Lemma point_count_from acc sh :
  fold_left (fun count s => count * s) sh acc = acc * product_of_dims sh.
Proof.
  revert acc. induction sh as [|d sh IH]; intros acc; simpl.
  - lia.
  - rewrite IH. unfold product_of_dims. simpl. lia.
Qed.

Lemma point_count_product sh : point_count sh = product_of_dims sh.
Proof. unfold point_count. rewrite point_count_from. lia. Qed.

Lemma entry_of_shape name sh :
  entry_has_shape sh (name, str_of_tuple sh, point_count sh).
Proof.
  unfold entry_has_shape. repeat split.
  - apply point_count_product.
  - intros ->. reflexivity.
Qed.

Lemma string_app_assoc (a b c : string) : (a ++ b) ++ c = a ++ b ++ c.
Proof. induction a as [|x a IH]; simpl; [reflexivity | now rewrite IH]. Qed.

Lemma collect_group_preserves w ty ds grp prefix name_of :
  group_of_dataset ds grp prefix ->
  (forall vname, name_of vname = prefix ++ vname) ->
  forall st,
    Forall (entry_of_dataset ds) st ->
    Forall (entry_of_dataset ds) (fst (collect_group w ty grp name_of st)).
Proof.
  intros Hgrp Hname. unfold collect_group.
  apply bind_preserves; [apply lift_preserves|]. intros names.
  apply for_each_preserves. intros vname st Hst.
  unfold bind, lift, modify.
  destruct (if String.eqb ty "netcdf" then variables grp vname
            else getitem grp vname) as [e | var] eqn:Hlookup; simpl.
  - exact Hst.
  - apply Forall_app. split; [exact Hst|]. constructor; [|constructor].
    exists grp, prefix, vname, var.
    split; [exact Hgrp|]. split; [|split; [apply Hname|apply entry_of_shape]].
    destruct (String.eqb ty "netcdf"); auto.
Qed.

(** C9. When the per-file variable list is returned, the file was opened,
    and every entry of the list describes a variable that a lookup in the
    root or in a subgroup of the file gave: its shape description is the
    text of the variable's shape, and its element count is the product of
    the lengths of the shape's dimensions, which is 1 when the shape is
    empty. *)
Theorem element_count_is_product_of_shape
  (w : World) (file_obj : FileToCompare) (result : list VarEntry) :
  _collect_variables_with_shapes w file_obj = inr result ->
  (exists ds,
      (if String.eqb (type file_obj) "netcdf"
       then netCDF4_Dataset w else h5py_File w) (path file_obj) = inr ds
      /\ Forall (entry_of_dataset ds) result)
  /\ (forall sh, point_count sh = product_of_dims sh)
  /\ point_count [] = 1.
Proof.
  intros Hrun. split; [|split; [apply point_count_product | reflexivity]].
  unfold _collect_variables_with_shapes in Hrun.
  destruct ((if String.eqb (type file_obj) "netcdf"
             then netCDF4_Dataset w else h5py_File w) (path file_obj))
    as [e | ds]; [discriminate|].
  exists ds. split; [reflexivity|].
  match type of Hrun with
  | match ?body [] with _ => _ end = _ =>
      assert (Hinv : Forall (entry_of_dataset ds) (fst (body [])));
      [|destruct (body []) as [st [e | u]]; [discriminate|];
        injection Hrun as <-; exact Hinv]
  end.
  apply bind_preserves; [|intros _|constructor].
  - apply (collect_group_preserves w _ ds (root ds) "");
      [left; now split | reflexivity].
  - apply bind_preserves; [apply lift_preserves|].
    intros gnames. apply for_each_preserves. intros gname.
    apply try_except_preserves; [|apply ret_preserves].
    unfold bind at 1, lift at 1. intros st Hst.
    destruct (if String.eqb (type file_obj) "netcdf"
              then groups ds gname else getitem_group ds gname)
      as [e | grp] eqn:Hgrp; [exact Hst|].
    apply (collect_group_preserves w _ ds grp (gname ++ "/"));
      [|intros vname; symmetry; apply string_app_assoc|exact Hst].
    right. exists gname. split; [|reflexivity].
    destruct (String.eqb (type file_obj) "netcdf"); auto.
Qed.

Lemma element_count_is_product_of_shape_witness :
  exists ds,
    netCDF4_Dataset stub_world (mkPath "a.nc") = inr ds
    /\ Forall (entry_of_dataset ds)
         [("t", "(3, 4)", 12); ("scalar", "()", 1);
          ("g/t", "(3, 4)", 12); ("g/scalar", "()", 1)].
Proof.
  apply (element_count_is_product_of_shape stub_world
           (mkFile (mkPath "a.nc") "netcdf")).
  vm_compute. reflexivity.
Defined.

(* ===================================================================== *)
(** ** The orchestrator                                                   *)
(* ===================================================================== *)

Lemma bind_lift {S A B} (r : exn + A) (k : A -> Stmt S B) st :
  (x <- lift r ;; k x) st
  = match r with inl e => (st, inl e) | inr a => k a st end.
Proof. unfold bind, lift. now destruct r. Qed.

Lemma bind_assign {B} f (k : Stmt RunState B) st :
  (assign f ;;; k) st = k (mkRun (compare_calls st) (f (result st))).
Proof. reflexivity. Qed.

Lemma merge_csv_report_run fs csv st :
  merge_csv_report fs (Some csv) st
  = match exists_ fs csv with
    | inl e => (st, inl e)
    | inr true =>
        let st1 :=
          mkRun (compare_calls st)
                (set_report_csv_path (AsPath csv) (result st)) in
        match csv_rows fs csv with
        | inl e => (st1, inl e)
        | inr rows =>
            (mkRun (compare_calls st)
                   (merge_summary
                      (summary_of (run_rows (tl rows) initial_locals))
                      (result st1)),
             inr tt)
        end
    | inr false => (st, inr tt)
    end.
Proof.
  unfold merge_csv_report. rewrite bind_lift.
  destruct (exists_ fs csv) as [e | []]; [reflexivity | | reflexivity].
  simpl when. rewrite bind_assign, bind_lift.
  destruct (csv_rows fs csv) as [e | rows]; [reflexivity|].
  rewrite bind_lift, parse_run. reflexivity.
Qed.

Lemma record_text_report_run fs report_txt st :
  record_text_report fs report_txt st
  = (text_report_recorded fs report_txt st,
     text_report_outcome fs report_txt).
Proof.
  unfold record_text_report, text_report_recorded, text_report_outcome.
  destruct report_txt as [p|]; [|reflexivity].
  rewrite bind_lift. now destruct (exists_ fs p) as [e | []].
Qed.

Lemma merge_csv_report_frame fs report_csv st :
  let st1 := fst (merge_csv_report fs report_csv st) in
  compare_calls st1 = compare_calls st
  /\ other_fields (result st1) = other_fields (result st)
  /\ report_text_path (result st1) = report_text_path (result st).
Proof.
  destruct report_csv as [csv|]; [|now repeat split].
  rewrite merge_csv_report_run.
  destruct (exists_ fs csv) as [e | []]; try (now repeat split).
  destruct (csv_rows fs csv) as [e | rows]; now repeat split.
Qed.

Lemma record_text_report_frame fs report_txt st :
  let st2 := text_report_recorded fs report_txt st in
  compare_calls st2 = compare_calls st
  /\ other_fields (result st2) = other_fields (result st)
  /\ summary_fields (result st2) = summary_fields (result st)
  /\ report_csv_path (result st2) = report_csv_path (result st).
Proof.
  unfold text_report_recorded.
  destruct report_txt as [p|]; [|now repeat split].
  destruct (exists_ fs p) as [e | []]; now repeat split.
Qed.

(** The statements after the call of [ncompare.compare]. *)
Lemma after_call_calls {A} fs report_csv report_txt
  (k : Stmt RunState A) st :
  (forall st0, compare_calls (fst (k st0)) = compare_calls st0) ->
  compare_calls
    (fst ((merge_csv_report fs report_csv ;;;
           record_text_report fs report_txt ;;; k) st))
  = compare_calls st.
Proof.
  intros Hk. unfold bind at 1.
  destruct (merge_csv_report_frame fs report_csv st) as (Hc & _).
  destruct (merge_csv_report fs report_csv st) as [st1 [e | []]];
    simpl in *; [exact Hc|].
  unfold bind at 1. rewrite record_text_report_run.
  destruct (record_text_report_frame fs report_txt st1) as (Hc2 & _).
  destruct (text_report_outcome fs report_txt) as [e | []]; simpl.
  - congruence.
  - rewrite Hk. congruence.
Qed.

Ltac run_prelude :=
  repeat (first [rewrite bind_lift | rewrite bind_assign];
          match goal with
          | |- context [match ?x with inl _ => _ | inr _ => _ end] =>
              destruct x eqn:?
          | _ => idtac
          end).

(** C7. Whatever the three flags of the options are, [run_comparison]
    calls [ncompare.compare] at most once, exactly once when it returns a
    result, and the call carries [only_differences] as [only_diffs],
    [include_chunking] as [show_chunks] and [include_attributes] as
    [show_attributes], each unchanged.  On the stub of the collaborators
    the run returns a result for each of the eight combinations of the
    flags, and the one call recorded carries them. *)
Theorem flags_are_forwarded
  (w : World) (file_a file_b : string) (options : ComparisonOptions)
  (st : RunState) :
  match run_comparison w file_a file_b options st with
  | (st', inr _) =>
      exists args,
        compare_calls st' = (compare_calls st ++ [args])%list
        /\ flags_forwarded options args
  | (st', inl _) =>
      compare_calls st' = compare_calls st
      \/ exists args,
           compare_calls st' = (compare_calls st ++ [args])%list
           /\ flags_forwarded options args
  end
  /\ (forall only_differences include_attributes include_chunking : bool,
        exists st' r args,
          run_comparison stub_world "a.nc" "b.nc"
            (mkOptions only_differences include_attributes include_chunking
               (AsStr "") (AsStr ""))
            initial_run
          = (st', inr r)
          /\ compare_calls st' = [args]
          /\ only_diffs args = only_differences
          /\ show_attributes args = include_attributes
          /\ show_chunks args = include_chunking).
Proof.
  split; [|intros [] [] []; do 3 eexists; (split; [vm_compute; reflexivity|]);
           repeat split].
  unfold run_comparison.
  run_prelude; try (left; reflexivity).
  match goal with
  | |- context [call_compare w ?a] => set (args := a)
  end.
  assert (Hflags : flags_forwarded options args) by (now repeat split).
  unfold bind at 1, call_compare.
  destruct (ncompare_compare w args) as [e | [total fs]].
  - right. exists args. now split.
  - rewrite bind_assign.
    match goal with
    | |- context [(merge_csv_report fs ?c ;;; record_text_report fs ?t ;;; ?k)
                    ?st0] =>
        pose proof (after_call_calls fs c t k st0 (fun _ => eq_refl)) as Hc;
        destruct ((merge_csv_report fs c ;;; record_text_report fs t ;;; k)
                    st0) as [st' [e | r]]
    end; simpl in Hc; [right|]; exists args; now split.
Qed.

(** C8. When [run_comparison] returns a result, [ncompare.compare] has
    returned and looking for the two reports has not raised, and then:
    - if the CSV report exists, the result holds its path and, in its seven
      counters and its detail list, what the CSV parser returns for the
      report; if it does not exist, the counters are 0, the detail list is
      empty and [report_csv_path] is the empty text;
    - [report_text_path] is the path of the text report if one was asked
      for and exists, and the empty text otherwise;
    - from any state, the two steps leave the other fields of the result
      (the two file paths, the dimension and variable lists and the total)
      as they were. *)
Theorem reports_are_merged_when_present
  (w : World) (file_a file_b : string) (options : ComparisonOptions)
  (st st' : RunState) (r : ComparisonResult) :
  run_comparison w file_a file_b options st = (st', inr r) ->
  let report_txt := optional_path w (opt_report_text_path options) in
  exists (path_a path_b csv : Path) (total : Z) (fs : FileSystem),
    csv_destination w (optional_path w (opt_report_csv_path options))
    = Some csv
    /\ ncompare_compare w
         (compare_args path_a path_b options report_txt (Some csv))
       = inr (total, fs)
    /\ match exists_ fs csv with
       | inr true =>
           report_csv_path r = AsPath csv
           /\ exists rows,
                csv_rows fs csv = inr rows
                /\ _parse_csv_for_summary_and_diffs rows
                   = inr (summary_fields r)
       | inr false =>
           report_csv_path r = AsStr ""
           /\ summary_fields r = zero_summary
       | inl _ => False
       end
    /\ match report_txt with
       | Some p =>
           match exists_ fs p with
           | inr true => report_text_path r = AsPath p
           | inr false => report_text_path r = AsStr ""
           | inl _ => False
           end
       | None => report_text_path r = AsStr ""
       end
    /\ (forall st0 : RunState,
          other_fields
            (result (fst ((merge_csv_report fs (Some csv) ;;;
                           record_text_report fs report_txt) st0)))
          = other_fields (result st0)).
Proof.
  intros Hrun report_txt. unfold run_comparison in Hrun. revert Hrun.
  run_prelude; try discriminate.
  fold report_txt.
  destruct (csv_destination w (optional_path w (opt_report_csv_path options)))
    as [csv|] eqn:Hcsv;
    [|unfold csv_destination in Hcsv;
      destruct (optional_path w (opt_report_csv_path options));
      discriminate].
  match goal with
  | |- context [compare_args ?pa ?pb options report_txt (Some csv)] =>
      rename pa into path_a; rename pb into path_b
  end.
  unfold bind at 1, call_compare.
  destruct (ncompare_compare w
              (compare_args path_a path_b options report_txt (Some csv)))
    as [e | [total fs]] eqn:Hcall; [discriminate|].
  rewrite bind_assign. unfold bind at 1. rewrite merge_csv_report_run.
  intros Hrun.
  exists path_a, path_b, csv, total, fs.
  split; [reflexivity|]. split; [exact Hcall|].
  assert (Hframe : forall st0 : RunState,
             other_fields
               (result (fst ((merge_csv_report fs (Some csv) ;;;
                              record_text_report fs report_txt) st0)))
             = other_fields (result st0)).
  { intros st0. unfold bind.
    destruct (merge_csv_report_frame fs (Some csv) st0) as (_ & Ho & _).
    destruct (merge_csv_report fs (Some csv) st0) as [st1 [e | []]];
      simpl in *; [exact Ho|].
    rewrite record_text_report_run. simpl.
    destruct (record_text_report_frame fs report_txt st1) as (_ & Ho2 & _).
    congruence. }
  assert (Htext : forall st1 : RunState,
             report_text_path (result st1) = AsStr "" ->
             (let (st2, out) :=
                (record_text_report fs report_txt ;;;
                 st3 <- get ;; ret (result st3)) st1 in
              out = inr r) ->
             summary_fields r = summary_fields (result st1)
             /\ report_csv_path r = report_csv_path (result st1)
             /\ match report_txt with
                | Some p =>
                    match exists_ fs p with
                    | inr true => report_text_path r = AsPath p
                    | inr false => report_text_path r = AsStr ""
                    | inl _ => False
                    end
                | None => report_text_path r = AsStr ""
                end).
  { intros st1 Hempty. unfold bind at 1.
    rewrite record_text_report_run.
    unfold text_report_outcome, text_report_recorded.
    destruct report_txt as [p|];
      [destruct (exists_ fs p) as [e | []]|]; simpl;
      intros H; try discriminate H; injection H as <-; now repeat split. }
  destruct (exists_ fs csv) as [e | []] eqn:Hex.
  - discriminate Hrun.
  - cbv zeta in Hrun.
    destruct (csv_rows fs csv) as [e | rows] eqn:Hrows; [discriminate|].
    match type of Hrun with
    | ?run ?st1 = _ =>
        destruct (Htext st1 eq_refl) as (Hs & Hc & Ht);
          [change (run st1) with
             ((record_text_report fs report_txt ;;;
               st3 <- get ;; ret (result st3)) st1) in Hrun;
           now rewrite Hrun|]
    end.
    split; [|split; [exact Ht | exact Hframe]].
    split; [exact Hc|].
    exists rows. split; [reflexivity|]. rewrite parse_run. f_equal.
    exact (eq_sym Hs).
  - match type of Hrun with
    | ?run ?st1 = _ =>
        destruct (Htext st1 eq_refl) as (Hs & Hc & Ht);
          [change (run st1) with
             ((record_text_report fs report_txt ;;;
               st3 <- get ;; ret (result st3)) st1) in Hrun;
           now rewrite Hrun|]
    end.
    split; [|split; [exact Ht | exact Hframe]].
    split; [exact Hc | exact Hs].
Qed.

Lemma reports_are_merged_when_present_witness :
  report_csv_path stub_result = AsPath (mkPath "/tmp/ncompare_01234567.csv")
  /\ _parse_csv_for_summary_and_diffs dtype_report
     = inr (summary_fields stub_result)
  /\ report_text_path stub_result = AsPath (mkPath "out.txt").
Proof.
  destruct (reports_are_merged_when_present stub_world "a.nc" "b.nc"
              stub_options initial_run (fst stub_run) stub_result eq_refl)
    as (pa & pb & csv & total & fs & Hcsv & Hcall & Hmerge & Htxt & _).
  vm_compute in Hcsv. injection Hcsv as <-.
  cbn in Hcall. injection Hcall as <- <-.
  cbn in Hmerge, Htxt.
  destruct Hmerge as [Hpath (rows & Hrows & Hparse)].
  injection Hrows as <-.
  split; [exact Hpath|]. split; [exact Hparse | exact Htxt].
Defined.

(* ===================================================================== *)
(** ** More on the CSV difference parser                                  *)
(* ===================================================================== *)

Lemma step_unrelated_row row st :
  columns_ok row && (is_detail_row row || is_total_row row) = false ->
  step row st = st.
Proof.
  intros H. rewrite step_eq. unfold step_spec, detail_update.
  destruct (columns_ok row); [|reflexivity]. simpl in H.
  apply orb_false_iff in H as [Hd Ht]. rewrite Hd.
  unfold is_total_row in Ht.
  apply orb_false_iff in Ht as [Ht H4].
  apply orb_false_iff in Ht as [Ht H3].
  apply orb_false_iff in Ht as [H1 H2].
  now rewrite H1, H2, H3, H4.
Qed.

(** X1. A data row that is neither marked [***] nor named after a counter
    changes nothing: wherever it stands in the file, the parser returns the
    same with the row as without it. *)
Theorem unrelated_rows_are_ignored
  (header : Row) (before after : list Row) (row : Row) :
  columns_ok row && (is_detail_row row || is_total_row row) = false ->
  _parse_csv_for_summary_and_diffs (header :: before ++ row :: after)
  = _parse_csv_for_summary_and_diffs (header :: before ++ after).
Proof.
  intros H. rewrite !parse_run. simpl tl. rewrite !run_rows_app.
  change (run_rows (row :: after) ?st) with (run_rows after (step row st)).
  now rewrite step_unrelated_row.
Qed.

Lemma unrelated_rows_are_ignored_witness :
  _parse_csv_for_summary_and_diffs
    (["Info"; "A"; "B"; "M"]
       :: [["Total # of shared groups"; "2"; "2"; ""]]
       ++ ["units"; "K"; "K"; ""] :: [["dtype"; "int32"; "int64"; "***"]])
  = _parse_csv_for_summary_and_diffs
      (["Info"; "A"; "B"; "M"]
         :: [["Total # of shared groups"; "2"; "2"; ""]]
         ++ [["dtype"; "int32"; "int64"; "***"]]).
Proof. apply unrelated_rows_are_ignored. reflexivity. Defined.

Lemma digits_then_space_nonneg s : forall prev acc n,
  0 <= acc -> PyStr.digits_then_space prev acc s = Some n -> 0 <= n.
Proof.
  induction s as [|c s IH]; intros prev acc n Hacc;
    cbn [PyStr.digits_then_space].
  - destruct prev; intros H; try discriminate. now injection H as <-.
  - destruct (PyStr.is_decimal c) eqn:Hc.
    + apply IH. unfold PyStr.digit_value.
      unfold PyStr.is_decimal in Hc. apply andb_true_iff in Hc as [Hlo _].
      apply N.leb_le in Hlo. unfold PyStr.code in *. lia.
    + destruct (Ascii.eqb c "_").
      * destruct prev; try discriminate. now apply IH.
      * destruct prev; try discriminate.
        destruct (PyStr.skip_c_space (String c s)); try discriminate.
        intros H. now injection H as <-.
Qed.

Lemma int_by_first_char s :
  PyStr.int s
  = let buffer := PyStr.skip_c_space (PyStr.to_ascii_buffer s) in
    if (PyStr.max_str_digits <? PyStr.count_decimal buffer)%N then None
    else
      match buffer with
      | String c s' =>
          if Ascii.eqb c "+" then
            PyStr.digits_then_space PyStr.AtStart 0 s'
          else if Ascii.eqb c "-" then
            option_map Z.opp (PyStr.digits_then_space PyStr.AtStart 0 s')
          else PyStr.digits_then_space PyStr.AtStart 0 (String c s')
      | EmptyString => PyStr.digits_then_space PyStr.AtStart 0 EmptyString
      end.
Proof.
  unfold PyStr.int. cbv zeta.
  destruct (PyStr.max_str_digits
            <? PyStr.count_decimal
                 (PyStr.skip_c_space (PyStr.to_ascii_buffer s)))%N;
    [reflexivity|].
  destruct (PyStr.skip_c_space (PyStr.to_ascii_buffer s)) as [|c s'];
    [reflexivity|].
  destruct c as [[] [] [] [] [] [] [] []]; reflexivity.
Qed.

Lemma digit_or_mark_plain c :
  digit_or_mark c = true ->
  PyStr.c_isspace c = false /\ Ascii.eqb c "+" = false
  /\ Ascii.eqb c "-" = false.
Proof.
  destruct c as [[] [] [] [] [] [] [] []]; vm_compute; intros H;
    try discriminate H; repeat split.
Qed.

Lemma isdigit_char_buffer c :
  PyStr.isdigit_char c = true ->
  (PyStr.is_ascii c = true -> PyStr.is_decimal c = true)
  /\ ((PyStr.code c <? 127)%N = true -> PyStr.is_decimal c = true)
  /\ ((PyStr.code c <? 127)%N = false -> PyStr.isspace c = false).
Proof.
  destruct c as [[] [] [] [] [] [] [] []]; vm_compute; intros H;
    try discriminate H; repeat split; intros H'; try discriminate H';
    reflexivity.
Qed.

Lemma all_chars_weaken (p q : ascii -> bool) s :
  (forall c, p c = true -> q c = true) ->
  PyStr.all_chars p s = true -> PyStr.all_chars q s = true.
Proof.
  intros Hpq. induction s as [|c s IH]; simpl; [reflexivity|].
  intros H. apply andb_true_iff in H as [Hc Hs].
  now rewrite (Hpq c Hc), IH.
Qed.

Lemma digits_buffer s :
  PyStr.all_chars PyStr.isdigit_char s = true ->
  PyStr.all_chars digit_or_mark (PyStr.to_ascii_buffer s) = true.
Proof.
  intros Hd. unfold PyStr.to_ascii_buffer.
  destruct (PyStr.all_chars PyStr.is_ascii s) eqn:Hascii.
  - induction s as [|c s IH]; simpl in *; [reflexivity|].
    apply andb_true_iff in Hd as [Hc Hs].
    apply andb_true_iff in Hascii as [Ha Has].
    destruct (isdigit_char_buffer c Hc) as (Hdec & _).
    unfold digit_or_mark at 1. now rewrite (Hdec Ha), IH.
  - clear Hascii. induction s as [|c s IH]; simpl in *; [reflexivity|].
    apply andb_true_iff in Hd as [Hc Hs].
    destruct (isdigit_char_buffer c Hc) as (_ & Hlow & Hhigh).
    destruct (PyStr.code c <? 127)%N.
    + simpl. unfold digit_or_mark at 1. now rewrite Hlow, IH.
    + now rewrite Hhigh.
Qed.

(** A text that passes [isdigit] is never read as a negative integer. *)
Lemma isdigit_int_nonneg v n :
  PyStr.isdigit v = true -> PyStr.int v = Some n -> 0 <= n.
Proof.
  intros Hd. assert (Hall : PyStr.all_chars PyStr.isdigit_char v = true)
    by (destruct v; [discriminate | exact Hd]).
  apply digits_buffer in Hall. rewrite int_by_first_char. cbv zeta.
  destruct (PyStr.max_str_digits
            <? PyStr.count_decimal
                 (PyStr.skip_c_space (PyStr.to_ascii_buffer v)))%N;
    [discriminate|].
  destruct (PyStr.to_ascii_buffer v) as [|c b]; cbn [PyStr.skip_c_space].
  - discriminate.
  - cbn [PyStr.all_chars] in Hall. apply andb_true_iff in Hall as [Hc _].
    destruct (digit_or_mark_plain c Hc) as (Hsp & Hplus & Hminus).
    rewrite Hsp, Hplus, Hminus. intros H.
    eapply digits_then_space_nonneg; [|exact H]. lia.
Qed.

Lemma value_or_zero_nonneg v n : value_or_zero v = Some n -> 0 <= n.
Proof.
  unfold value_or_zero. destruct (PyStr.isdigit v) eqn:Hd.
  - now apply isdigit_int_nonneg.
  - intros H. injection H as <-. lia.
Qed.

Lemma run_rows_non_shared_nonneg rows : forall st,
  (0 <= var_left st /\ 0 <= var_right st
   /\ 0 <= grp_left st /\ 0 <= grp_right st) ->
  let st' := run_rows rows st in
  0 <= var_left st' /\ 0 <= var_right st'
  /\ 0 <= grp_left st' /\ 0 <= grp_right st'.
Proof.
  induction rows as [|row rows IH]; intros st Hst; [exact Hst|].
  change (run_rows (row :: rows) st) with (run_rows rows (step row st)).
  apply IH. destruct Hst as (H1 & H2 & H3 & H4).
  rewrite step_var_left, step_var_right, step_grp_left, step_grp_right.
  pose proof (value_or_zero_nonneg (val_a_of row)) as Ha.
  pose proof (value_or_zero_nonneg (val_b_of row)) as Hb.
  destruct (value_or_zero (val_a_of row)) as [l|],
           (value_or_zero (val_b_of row)) as [r|];
    repeat split;
    repeat match goal with
           | |- context [if ?b then _ else _] => destruct b
           end; auto.
Qed.

(** X2. Whatever the CSV input, the four non-shared counters the parser
    returns (variables and groups, only in A and only in B) are never
    negative: they are read from texts of digits only, or are 0.  The
    shared counters carry no such bound: value_b is read with its sign. *)
Theorem non_shared_counters_never_negative (rows : list Row) :
  (exists s,
      _parse_csv_for_summary_and_diffs rows = inr s
      /\ 0 <= variables_only_in_a_of s /\ 0 <= variables_only_in_b_of s
      /\ 0 <= groups_only_in_a_of s /\ 0 <= groups_only_in_b_of s)
  /\ (forall header : Row,
        exists s,
          _parse_csv_for_summary_and_diffs
            [header; ["Total # of shared variables"; "n/a"; "-5"]] = inr s
          /\ variables_shared_of s = -5).
Proof.
  split.
  - eexists. split; [apply parse_run|].
    apply (run_rows_non_shared_nonneg (tl rows) initial_locals).
    simpl. lia.
  - intros header. eexists. split; [apply parse_rows|]. reflexivity.
Qed.

Lemma step_counters_without_marker row st1 st2 :
  counters_of_locals st1 = counters_of_locals st2 ->
  counters_of_locals (step row st1)
  = counters_of_locals (step (firstn 3 row) st2).
Proof.
  unfold counters_of_locals. intros H.
  injection H as H1 H2 H3 H4 H5 H6.
  rewrite !step_var_left, !step_var_right, !step_var_shared,
    !step_grp_left, !step_grp_right, !step_grp_shared.
  rewrite H1, H2, H3, H4, H5, H6.
  destruct row as [|c0 [|c1 [|c2 [|c3 rest]]]]; reflexivity.
Qed.

Lemma run_rows_counters_without_marker rows : forall st1 st2,
  counters_of_locals st1 = counters_of_locals st2 ->
  counters_of_locals (run_rows rows st1)
  = counters_of_locals (run_rows (map (firstn 3) rows) st2).
Proof.
  induction rows as [|row rows IH]; intros st1 st2 H; [exact H|].
  simpl map.
  change (run_rows (?r :: ?rs) ?st) with (run_rows rs (step r st)).
  apply IH. now apply step_counters_without_marker.
Qed.

Lemma filter_map_nothing {A B} (p : B -> bool) (f : A -> B) (l : list A) :
  (forall x, p (f x) = false) -> filter p (map f l) = [].
Proof.
  intros H. induction l as [|x l IH]; simpl; [reflexivity|].
  now rewrite H.
Qed.

(** X3. The six counters do not depend on the marker column, nor on any
    column after it: the parser returns the same counters for the rows cut
    to their first three columns, and then no detail row. *)
Theorem counters_ignore_the_marker (header : Row) (rows : list Row) :
  exists s s',
    _parse_csv_for_summary_and_diffs (header :: rows) = inr s
    /\ _parse_csv_for_summary_and_diffs (header :: map (firstn 3) rows)
       = inr s'
    /\ counters_of s' = counters_of s
    /\ difference_details_of s' = []
    /\ attribute_difference_count_of s' = 0.
Proof.
  do 2 eexists. split; [apply parse_rows|]. split; [apply parse_rows|].
  assert (Hd : details (run_rows (map (firstn 3) rows) initial_locals) = []).
  { rewrite run_rows_details. simpl.
    rewrite filter_map_nothing; [reflexivity|].
    intros row. destruct row as [|c0 [|c1 [|c2 [|c3 rest]]]]; reflexivity. }
  split; [|split].
  - symmetry.
    apply (run_rows_counters_without_marker rows initial_locals
             initial_locals eq_refl).
  - exact Hd.
  - change (attribute_difference_count_of (summary_of ?st))
      with (Z.of_nat (List.length (details st))).
    now rewrite Hd.
Qed.

(* ===================================================================== *)
(** ** More on the per-file variable list                                 *)
(* ===================================================================== *)

Lemma for_each_app {S A} (xs ys : list A) (body : A -> Stmt S unit) st :
  for_each (xs ++ ys) body st = (for_each xs body ;;; for_each ys body) st.
Proof.
  revert st. induction xs as [|x xs IH]; intros st; simpl.
  - reflexivity.
  - unfold bind in *. destruct (body x st) as [st' [e | []]].
    + reflexivity.
    + apply IH.
Qed.

Lemma bind_ext {S A B} (m : Stmt S A) (k1 k2 : A -> Stmt S B) st :
  (forall a st', k1 a st' = k2 a st') ->
  (x <- m ;; k1 x) st = (x <- m ;; k2 x) st.
Proof.
  intros H. unfold bind. destruct (m st) as [st' [e | a]]; [reflexivity|].
  apply H.
Qed.

(** The loop over the names of one group: it appends the entries of the
    names found, in order, and stops at the first name that is not. *)
Lemma collect_names ty grp name_of names : forall st,
  let body := fun vname : string =>
    (var <- lift (if String.eqb ty "netcdf" then variables grp vname
                  else getitem grp vname) ;;
     modify (fun result : list VarEntry =>
               (result ++ [(name_of vname, str_of_tuple (shape_of var),
                            point_count (shape_of var))])%list)) in
  match for_each names body st with
  | (st', inr _) =>
      exists found,
        map fst found = names /\ all_found ty grp found
        /\ st' = (st ++ entries_of name_of found)%list
  | (st', inl e) =>
      exists found vname rest,
        names = (map fst found ++ vname :: rest)%list
        /\ all_found ty grp found
        /\ lookup_variable ty grp vname = inl e
        /\ st' = (st ++ entries_of name_of found)%list
  end.
Proof.
  induction names as [|vname names IH]; intros st body.
  - exists []. repeat split; [constructor | now rewrite app_nil_r].
  - cbn [for_each]. unfold bind at 1. unfold body at 1.
    unfold bind at 1, lift at 1, modify at 1.
    destruct (if String.eqb ty "netcdf" then variables grp vname
              else getitem grp vname) as [e | var] eqn:Hlook.
    + exists [], vname, names.
      repeat split; [constructor | exact Hlook | now rewrite app_nil_r].
    + specialize (IH (st ++ [(name_of vname, str_of_tuple (shape_of var),
                              point_count (shape_of var))])%list).
      cbv zeta in IH. subst body.
      match type of IH with
      | (let (_, _) := ?run in _) => destruct run as [st' [e | u]]
      end.
      * destruct IH as (found & v & rest & Hn & Hf & Hl & Hst).
        exists ((vname, var) :: found), v, rest.
        repeat split.
        -- simpl. now rewrite Hn.
        -- constructor; assumption.
        -- exact Hl.
        -- rewrite Hst, <- app_assoc. reflexivity.
      * destruct IH as (found & Hn & Hf & Hst).
        exists ((vname, var) :: found).
        repeat split.
        -- simpl. now rewrite Hn.
        -- constructor; assumption.
        -- rewrite Hst, <- app_assoc. reflexivity.
Qed.

Lemma collect_group_appends w ty grp name_of st0 :
  forall st,
    extends st0 st -> extends st0 (fst (collect_group w ty grp name_of st)).
Proof.
  unfold collect_group.
  apply (bind_preserves (extends st0));
    [apply (lift_preserves (extends st0))|].
  intros names.
  apply (for_each_preserves (extends st0)).
  intros vname.
  apply (bind_preserves (extends st0));
    [apply (lift_preserves (extends st0))|].
  intros var st [es ->]. simpl. eexists. now rewrite <- app_assoc.
Qed.

Lemma subgroups_append w ty ds gnames st0 :
  forall st,
    extends st0 st ->
    extends st0 (fst (for_each gnames (subgroup_body w ty ds) st)).
Proof.
  apply (for_each_preserves (extends st0)).
  intros gname. unfold subgroup_body.
  apply (try_except_preserves (extends st0));
    [|apply (ret_preserves (extends st0))].
  apply (bind_preserves (extends st0));
    [apply (lift_preserves (extends st0))|].
  intros grp. apply collect_group_appends.
Qed.

(** The function, with its blocks named. *)
Lemma collect_variables_unfold w file_obj :
  _collect_variables_with_shapes w file_obj
  = match open_file w file_obj with
    | inl e => inl e
    | inr ds =>
        match (collect_group w (type file_obj) (root ds) (fun v => v) ;;;
               gnames <- lift (get_root_groups w file_obj) ;;
               for_each gnames (subgroup_body w (type file_obj) ds)) []
        with
        | (result, inr _) => inr result
        | (_, inl e) => inl e
        end
    end.
Proof. reflexivity. Qed.

Lemma collect_root_run w ty grp name_of names st :
  get_variables w grp ty = inr names ->
  collect_group w ty grp name_of st
  = for_each names (fun vname : string =>
      (var <- lift (if String.eqb ty "netcdf" then variables grp vname
                    else getitem grp vname) ;;
       modify (fun result : list VarEntry =>
                 (result ++ [(name_of vname, str_of_tuple (shape_of var),
                              point_count (shape_of var))])%list))) st.
Proof. intros H. unfold collect_group. rewrite bind_lift, H. reflexivity. Qed.

(** X4. When the per-file variable list is returned, it begins with one
    entry for each variable that [get_variables] lists for the root, in
    the listed order and under the listed name; the entries of the
    subgroups come after them. *)
Theorem root_variables_come_first
  (w : World) (file_obj : FileToCompare) (ds : Dataset)
  (names : list string) (result : list VarEntry) :
  _collect_variables_with_shapes w file_obj = inr result ->
  open_file w file_obj = inr ds ->
  get_variables w (root ds) (type file_obj) = inr names ->
  exists found rest,
    map fst found = names
    /\ all_found (type file_obj) (root ds) found
    /\ result = (entries_of (fun v => v) found ++ rest)%list.
Proof.
  intros Hrun Hopen Hnames.
  rewrite collect_variables_unfold, Hopen in Hrun.
  unfold bind at 1 in Hrun.
  rewrite (collect_root_run _ _ _ _ names) in Hrun by exact Hnames.
  pose proof (collect_names (type file_obj) (root ds) (fun v => v) names [])
    as Hroot. cbv zeta in Hroot.
  destruct (for_each names _ []) as [st1 [e | u]]; [discriminate|].
  destruct Hroot as (found & Hn & Hf & ->). simpl app in Hrun.
  rewrite bind_lift in Hrun.
  destruct (get_root_groups w file_obj) as [e | gnames]; [discriminate|].
  destruct (subgroups_append w (type file_obj) ds gnames
              (entries_of (fun v => v) found)
              (entries_of (fun v => v) found))
    as [rest Hrest]; [exists []; now rewrite app_nil_r|].
  destruct (for_each gnames _ _) as [st2 [e | u2]]; [discriminate|].
  injection Hrun as <-. simpl in Hrest.
  exists found, rest. now repeat split.
Qed.

Lemma root_variables_come_first_witness :
  exists found rest,
    map fst found = ["t"; "scalar"]
    /\ all_found "netcdf" stub_group found
    /\ [("t", "(3, 4)", 12); ("scalar", "()", 1);
        ("g/t", "(3, 4)", 12); ("g/scalar", "()", 1)]
       = (entries_of (fun v => v) found ++ rest)%list.
Proof.
  apply (root_variables_come_first stub_world stub_file stub_dataset);
    reflexivity.
Defined.

(** X5. An error met at the root of the file is never swallowed: when the
    file cannot be opened, when the root variables cannot be listed, when
    the lookup of a listed root variable raises (the ones before it having
    been found), or when the subgroups cannot be listed after the root was
    collected, the function raises that very error, [KeyError] and
    [TypeError] included, and returns no partial list. *)
Theorem root_errors_propagate
  (w : World) (file_obj : FileToCompare) (e : exn) :
  (open_file w file_obj = inl e ->
   _collect_variables_with_shapes w file_obj = inl e)
  /\ (forall ds,
        open_file w file_obj = inr ds ->
        get_variables w (root ds) (type file_obj) = inl e ->
        _collect_variables_with_shapes w file_obj = inl e)
  /\ (forall ds found vname rest,
        open_file w file_obj = inr ds ->
        get_variables w (root ds) (type file_obj)
        = inr (map fst found ++ vname :: rest)%list ->
        all_found (type file_obj) (root ds) found ->
        lookup_variable (type file_obj) (root ds) vname = inl e ->
        _collect_variables_with_shapes w file_obj = inl e)
  /\ (forall ds found,
        open_file w file_obj = inr ds ->
        get_variables w (root ds) (type file_obj) = inr (map fst found) ->
        all_found (type file_obj) (root ds) found ->
        get_root_groups w file_obj = inl e ->
        _collect_variables_with_shapes w file_obj = inl e).
Proof.
  assert (Hfound : forall ds found names' st,
             all_found (type file_obj) (root ds) found ->
             for_each (map fst found ++ names')
               (fun vname : string =>
                  (var <- lift (if String.eqb (type file_obj) "netcdf"
                                then variables (root ds) vname
                                else getitem (root ds) vname) ;;
                   modify (fun result : list VarEntry =>
                     (result ++ [(vname, str_of_tuple (shape_of var),
                                  point_count (shape_of var))])%list))) st
             = for_each names'
                 (fun vname : string =>
                    (var <- lift (if String.eqb (type file_obj) "netcdf"
                                  then variables (root ds) vname
                                  else getitem (root ds) vname) ;;
                     modify (fun result : list VarEntry =>
                       (result ++ [(vname, str_of_tuple (shape_of var),
                                    point_count (shape_of var))])%list)))
                 (st ++ entries_of (fun v => v) found)%list).
  { intros ds found names'. induction found as [|[v var] found IH];
      intros st Hf.
    - simpl. now rewrite app_nil_r.
    - inversion Hf as [|? ? Hv Hrest]; subst. simpl in Hv.
      unfold lookup_variable in Hv.
      simpl map. simpl app. cbn [for_each]. unfold bind at 1.
      unfold bind at 1, lift at 1, modify at 1. rewrite Hv.
      rewrite IH by assumption. now rewrite <- app_assoc. }
  repeat split.
  - intros Hopen. now rewrite collect_variables_unfold, Hopen.
  - intros ds Hopen Hlist. rewrite collect_variables_unfold, Hopen.
    unfold bind at 1, collect_group. now rewrite bind_lift, Hlist.
  - intros ds found vname rest Hopen Hlist Hf Hlook.
    rewrite collect_variables_unfold, Hopen. unfold bind at 1.
    rewrite (collect_root_run _ _ _ _ _ _ Hlist), Hfound by assumption.
    cbn [for_each]. unfold bind at 1. unfold bind at 1, lift at 1.
    unfold lookup_variable in Hlook. now rewrite Hlook.
  - intros ds found Hopen Hlist Hf Hgroups.
    rewrite collect_variables_unfold, Hopen. unfold bind at 1.
    rewrite (collect_root_run _ _ _ _ _ _ Hlist).
    rewrite <- (app_nil_r (map fst found)), Hfound by assumption.
    cbn [for_each]. unfold ret at 1.
    now rewrite bind_lift, Hgroups.
Qed.

Lemma root_errors_propagate_witness :
  _collect_variables_with_shapes stub_world_root_gone stub_file
  = inl KeyError
  /\ _collect_variables_with_shapes stub_world
       (mkFile (mkPath "a.h5") "hdf5")
     = inl (OtherError "not an HDF5 file").
Proof.
  split.
  - apply (proj1 (proj2 (proj2
             (root_errors_propagate stub_world_root_gone stub_file
                KeyError)))
             stub_dataset [("t", mkVariable (Some [3; 4]))] "gone"
             ["scalar"]);
      try reflexivity.
    repeat constructor.
  - apply (proj1 (root_errors_propagate stub_world
                    (mkFile (mkPath "a.h5") "hdf5")
                    (OtherError "not an HDF5 file"))).
    reflexivity.
Defined.

(** X6. A subgroup whose lookup raises [KeyError] or [TypeError] is passed
    over: the function returns the same, list or error, as if
    [get_root_groups] had not named that subgroup. *)
Theorem unreadable_subgroup_is_skipped
  (w : World) (file_obj : FileToCompare) (ds : Dataset)
  (before after : list string) (bad : string) :
  open_file w file_obj = inr ds ->
  lookup_group (type file_obj) ds bad = inl KeyError
  \/ lookup_group (type file_obj) ds bad = inl TypeError ->
  _collect_variables_with_shapes
    (with_root_groups w (fun _ => inr (before ++ bad :: after)%list))
    file_obj
  = _collect_variables_with_shapes
      (with_root_groups w (fun _ => inr (before ++ after)%list)) file_obj.
Proof.
  intros Hopen Hbad.
  rewrite !collect_variables_unfold.
  change (open_file (with_root_groups w ?g) file_obj)
    with (open_file w file_obj).
  rewrite Hopen.
  match goal with
  | |- match ?l [] with _ => _ end = match ?r [] with _ => _ end =>
      assert (Heq : l [] = r []); [|now rewrite Heq]
  end.
  apply bind_ext. intros _ st. rewrite !bind_lift.
  cbn [get_root_groups with_root_groups].
  change (subgroup_body (with_root_groups w ?g)) with (subgroup_body w).
  rewrite !for_each_app. apply bind_ext. intros _ st'.
  cbn [for_each]. unfold bind at 1.
  assert (Hskip : subgroup_body w (type file_obj) ds bad st'
                  = (st', inr tt)).
  { unfold subgroup_body, try_except. rewrite bind_lift.
    destruct Hbad as [-> | ->]; reflexivity. }
  now rewrite Hskip.
Qed.

Lemma unreadable_subgroup_is_skipped_witness :
  _collect_variables_with_shapes
    (with_root_groups stub_world (fun _ => inr (["g"] ++ "missing" :: [])%list))
    stub_file
  = _collect_variables_with_shapes
      (with_root_groups stub_world (fun _ => inr (["g"] ++ [])%list))
      stub_file.
Proof.
  apply (unreadable_subgroup_is_skipped stub_world stub_file stub_dataset);
    [reflexivity | left; reflexivity].
Defined.

(* ===================================================================== *)
(** ** More on the orchestrator                                           *)
(* ===================================================================== *)

Lemma run_comparison_unprepared w file_a file_b options st e :
  prepare w file_a file_b = inl e ->
  snd (run_comparison w file_a file_b options st) = inl e
  /\ compare_calls (fst (run_comparison w file_a file_b options st))
     = compare_calls st.
Proof.
  unfold prepare, run_comparison.
  run_prelude; intros H; try discriminate H;
    injection H as <-; split; reflexivity.
Qed.

Lemma run_comparison_prepared w file_a file_b options st p :
  prepare w file_a file_b = inr p ->
  run_comparison w file_a file_b options st
  = (out <- call_compare w (call_for w options p) ;;
     finish (fst out) (snd out) (report_destination w options)
       (text_destination w options))
      (mkRun (compare_calls st) (prepared_result p)).
Proof.
  unfold prepare, run_comparison.
  run_prelude; intros H; try discriminate H.
  injection H as <-. unfold bind at 1 3.
  unfold call_for, call_compare.
  destruct (ncompare_compare w _) as [e | [total fs]]; reflexivity.
Qed.

Lemma report_destination_some w options :
  exists csv, report_destination w options = Some csv.
Proof.
  unfold report_destination, csv_destination.
  destruct (optional_path w (opt_report_csv_path options)); eauto.
Qed.

Lemma finish_run total fs csv report_txt st :
  finish total fs (Some csv) report_txt st
  = let st0 := mkRun (compare_calls st)
                     (set_total_differences total (result st)) in
    match merge_csv_report fs (Some csv) st0 with
    | (st1, inl e) => (st1, inl e)
    | (st1, inr _) =>
        let st2 := text_report_recorded fs report_txt st1 in
        match text_report_outcome fs report_txt with
        | inl e => (st2, inl e)
        | inr _ => (st2, inr (result st2))
        end
    end.
Proof.
  unfold finish. rewrite bind_assign. unfold bind at 1.
  destruct (merge_csv_report fs (Some csv) _) as [st1 [e | []]];
    [reflexivity|].
  unfold bind at 1. rewrite record_text_report_run.
  now destruct (text_report_outcome fs report_txt) as [e | []].
Qed.

Lemma run_comparison_compare_raises w file_a file_b options st p e :
  prepare w file_a file_b = inr p ->
  ncompare_compare w (call_for w options p) = inl e ->
  run_comparison w file_a file_b options st
  = (mkRun (compare_calls st ++ [call_for w options p])%list
           (prepared_result p), inl e).
Proof.
  intros Hp Hcall. rewrite (run_comparison_prepared _ _ _ _ _ _ Hp).
  unfold bind, call_compare. now rewrite Hcall.
Qed.

Lemma run_comparison_compare_returns w file_a file_b options st p total fs
  csv :
  prepare w file_a file_b = inr p ->
  ncompare_compare w (call_for w options p) = inr (total, fs) ->
  report_destination w options = Some csv ->
  run_comparison w file_a file_b options st
  = finish total fs (Some csv) (text_destination w options)
      (mkRun (compare_calls st ++ [call_for w options p])%list
             (prepared_result p)).
Proof.
  intros Hp Hcall Hcsv. rewrite (run_comparison_prepared _ _ _ _ _ _ Hp).
  unfold bind at 1, call_compare. now rewrite Hcall, Hcsv.
Qed.

Lemma run_comparison_prepared_calls w file_a file_b options st p :
  prepare w file_a file_b = inr p ->
  compare_calls (fst (run_comparison w file_a file_b options st))
  = (compare_calls st ++ [call_for w options p])%list.
Proof.
  intros Hp. rewrite (run_comparison_prepared _ _ _ _ _ _ Hp).
  unfold bind at 1, call_compare.
  destruct (ncompare_compare w _) as [e | [total fs]]; [reflexivity|].
  destruct (report_destination_some w options) as [csv Hcsv].
  simpl fst. simpl snd. rewrite Hcsv, finish_run. cbv zeta.
  match goal with
  | |- context [merge_csv_report fs (Some csv) ?st0] =>
      destruct (merge_csv_report_frame fs (Some csv) st0) as (Hc & _);
      destruct (merge_csv_report fs (Some csv) st0) as [st1 [e | []]]
  end; simpl in *; [exact Hc|].
  destruct (record_text_report_frame fs (text_destination w options) st1)
    as (Hc2 & _).
  simpl in Hc2.
  destruct (text_report_outcome fs (text_destination w options))
    as [e | []]; simpl; congruence.
Qed.

(** X7. [ncompare.compare] is called exactly when the eight preparatory
    steps (both paths checked, both file types validated, both dimension
    lists and both variable lists built, in this order) all succeed, and
    then once, with the validated paths.  When one of them raises, the run
    raises the error of the first that does, and makes no call. *)
Theorem compare_is_called_once_prepared
  (w : World) (file_a file_b : string) (options : ComparisonOptions)
  (st : RunState) :
  let run := run_comparison w file_a file_b options st in
  match prepare w file_a file_b with
  | inl e => snd run = inl e /\ compare_calls (fst run) = compare_calls st
  | inr (path_a, path_b, da, db, va, vb) =>
      exists args,
        compare_calls (fst run) = (compare_calls st ++ [args])%list
        /\ arg_a args = path_a /\ arg_b args = path_b
  end.
Proof.
  intros run. subst run.
  destruct (prepare w file_a file_b) as [e | p] eqn:Hp.
  - now apply run_comparison_unprepared.
  - destruct p as [[[[[pa pb] da] db] va] vb].
    exists (call_for w options (pa, pb, da, db, va, vb)).
    split; [now apply run_comparison_prepared_calls|]. now split.
Qed.

(** X8. Every call of [ncompare.compare] that a run makes asks for no
    colour and no spreadsheet, and always for a CSV report: at the path the
    options give when they give one, otherwise at the file
    [ncompare_] + the first eight characters of the UUID + [.csv] in the
    temporary directory.  It asks for a text report only when the options
    give a path for it. *)
Theorem compare_call_destinations
  (w : World) (file_a file_b : string) (options : ComparisonOptions)
  (st : RunState) :
  exists calls,
    compare_calls (fst (run_comparison w file_a file_b options st))
    = (compare_calls st ++ calls)%list
    /\ Forall
         (fun args =>
            no_color args = true
            /\ file_xlsx args = ""
            /\ file_csv args
               = (if truthy (opt_report_csv_path options)
                  then path_str (to_Path w (opt_report_csv_path options))
                  else path_str (temporary_csv w))
            /\ file_text args
               = (if truthy (opt_report_text_path options)
                  then path_str (to_Path w (opt_report_text_path options))
                  else ""))
         calls.
Proof.
  destruct (prepare w file_a file_b) as [e | p] eqn:Hp.
  - exists []. rewrite app_nil_r.
    split; [now apply (run_comparison_unprepared _ _ _ _ _ e)|constructor].
  - exists [call_for w options p].
    split; [now apply run_comparison_prepared_calls|].
    constructor; [|constructor].
    destruct p as [[[[[pa pb] da] db] va] vb].
    unfold call_for, compare_args, report_destination, text_destination,
      csv_destination, optional_path, temporary_csv. simpl.
    destruct (truthy (opt_report_csv_path options)),
             (truthy (opt_report_text_path options)); now repeat split.
Qed.

(** X9. When a run returns a result, the eight preparatory steps and the
    comparison succeeded, and the result holds what they gave: the texts of
    the two validated paths, the two dimension lists, the two variable
    lists, and as total the integer that [ncompare.compare] returned. *)
Theorem result_holds_what_was_prepared
  (w : World) (file_a file_b : string) (options : ComparisonOptions)
  (st st' : RunState) (r : ComparisonResult) :
  run_comparison w file_a file_b options st = (st', inr r) ->
  exists path_a path_b da db va vb total fs,
    prepare w file_a file_b = inr (path_a, path_b, da, db, va, vb)
    /\ ncompare_compare w
         (call_for w options (path_a, path_b, da, db, va, vb))
       = inr (total, fs)
    /\ other_fields r
       = (path_str path_a, path_str path_b, da, db, va, vb, total).
Proof.
  intros Hrun.
  destruct (prepare w file_a file_b) as [e | p] eqn:Hp.
  - destruct (run_comparison_unprepared w file_a file_b options st e Hp)
      as [Hout _].
    rewrite Hrun in Hout. discriminate Hout.
  - rewrite (run_comparison_prepared _ _ _ _ _ _ Hp) in Hrun.
    unfold bind at 1, call_compare in Hrun.
    destruct (ncompare_compare w (call_for w options p))
      as [e | [total fs]] eqn:Hcall; [discriminate|].
    destruct (report_destination_some w options) as [csv Hcsv].
    simpl fst in Hrun. simpl snd in Hrun.
    rewrite Hcsv, finish_run in Hrun. cbv zeta in Hrun.
    destruct p as [[[[[pa pb] da] db] va] vb].
    exists pa, pb, da, db, va, vb, total, fs.
    split; [reflexivity|]. split; [exact Hcall|].
    match type of Hrun with
    | context [merge_csv_report fs (Some csv) ?st0] =>
        destruct (merge_csv_report_frame fs (Some csv) st0) as (_ & Ho & _);
        destruct (merge_csv_report fs (Some csv) st0) as [st1 [e | []]]
    end; [discriminate|].
    destruct (text_report_outcome fs (text_destination w options))
      as [e | []]; [discriminate|].
    injection Hrun as _ <-.
    destruct (record_text_report_frame fs (text_destination w options) st1)
      as (_ & Ho2 & _).
    simpl in Ho, Ho2. rewrite Ho2, Ho. reflexivity.
Qed.

Lemma result_holds_what_was_prepared_witness :
  other_fields stub_result
  = ("a.nc", "b.nc",
     [("time", 3); ("lat", 4)], [("time", 3); ("lat", 4)],
     [("t", "(3, 4)", 12); ("scalar", "()", 1);
      ("g/t", "(3, 4)", 12); ("g/scalar", "()", 1)],
     [("t", "(3, 4)", 12); ("scalar", "()", 1);
      ("g/t", "(3, 4)", 12); ("g/scalar", "()", 1)],
     2).
Proof.
  destruct (result_holds_what_was_prepared stub_world "a.nc" "b.nc"
              stub_options initial_run (fst stub_run) stub_result eq_refl)
    as (pa & pb & da & db & va & vb & total & fs & Hp & Hcall & Hr).
  vm_compute in Hp. injection Hp as <- <- <- <- <- <-.
  cbn in Hcall. injection Hcall as <- _.
  exact Hr.
Defined.

(** X10. Once the preparatory steps have succeeded, the outcome of a run
    is decided by four answers, in this order: the run raises what
    [ncompare.compare] raises; else what looking for the CSV report
    ([exists()]) raises; else, if the CSV report exists, what reading it
    raises; else, if a text report was asked for, what looking for it
    raises; and otherwise it returns a result.  A CSV report that is
    missing, and whatever a readable CSV report holds, never make the run
    fail. *)
Theorem failures_after_preparation
  (w : World) (file_a file_b : string) (options : ComparisonOptions)
  (st : RunState) (p : Prepared) :
  prepare w file_a file_b = inr p ->
  let outcome := snd (run_comparison w file_a file_b options st) in
  let text_outcome (fs : FileSystem) : Prop :=
    match text_destination w options with
    | Some txt =>
        match exists_ fs txt with
        | inl e => outcome = inl e
        | inr _ => exists r, outcome = inr r
        end
    | None => exists r, outcome = inr r
    end in
  exists csv,
    report_destination w options = Some csv
    /\ match ncompare_compare w (call_for w options p) with
       | inl e => outcome = inl e
       | inr (total, fs) =>
           match exists_ fs csv with
           | inl e => outcome = inl e
           | inr true =>
               match csv_rows fs csv with
               | inl e => outcome = inl e
               | inr _ => text_outcome fs
               end
           | inr false => text_outcome fs
           end
       end.
Proof.
  intros Hp outcome text_outcome. subst text_outcome outcome.
  destruct (report_destination_some w options) as [csv Hcsv].
  exists csv. split; [exact Hcsv|].
  destruct (ncompare_compare w (call_for w options p))
    as [e | [total fs]] eqn:Hcall.
  - now rewrite (run_comparison_compare_raises _ _ _ _ _ _ _ Hp Hcall).
  - rewrite (run_comparison_compare_returns _ _ _ _ _ _ _ _ _ Hp Hcall Hcsv).
    rewrite finish_run. cbv zeta. rewrite merge_csv_report_run.
    unfold text_report_outcome.
    destruct (exists_ fs csv) as [e | []]; [reflexivity | |].
    + cbv zeta. destruct (csv_rows fs csv) as [e | rows]; [reflexivity|].
      destruct (text_destination w options) as [txt|]; [|simpl; eauto].
      destruct (exists_ fs txt) as [e | b]; simpl; eauto.
    + destruct (text_destination w options) as [txt|]; [|simpl; eauto].
      destruct (exists_ fs txt) as [e | b]; simpl; eauto.
Qed.

Lemma failures_after_preparation_witness :
  snd (run_comparison stub_world_csv_unreadable "a.nc" "b.nc" stub_options
         initial_run)
  = inl (OtherError "permission denied")
  /\ snd (run_comparison stub_world_name_too_long "a.nc" "b.nc"
            stub_options initial_run)
     = inl (OtherError "File name too long").
Proof.
  split.
  - destruct (failures_after_preparation stub_world_csv_unreadable
                "a.nc" "b.nc" stub_options initial_run _ eq_refl)
      as (csv & Hcsv & Hout).
    cbn in Hout. exact Hout.
  - destruct (failures_after_preparation stub_world_name_too_long
                "a.nc" "b.nc" stub_options initial_run _ eq_refl)
      as (csv & Hcsv & Hout).
    vm_compute in Hcsv. injection Hcsv as <-.
    cbn in Hout. exact Hout.
Defined.

(* ===================================================================== *)
(** ** The window                                                         *)
(* ===================================================================== *)

Lemma fold_left_snoc {A B} (f : A -> B) (l : list A) : forall acc,
  fold_left (fun acc x => (acc ++ [f x])%list) l acc = (acc ++ map f l)%list.
Proof.
  induction l as [|x l IH]; intros acc; simpl.
  - now rewrite app_nil_r.
  - rewrite IH, <- app_assoc. reflexivity.
Qed.

Lemma append_rows_map source vars : forall rows,
  Gui.append_rows source vars rows
  = (rows ++ map (table_row source) vars)%list.
Proof.
  unfold Gui.append_rows.
  induction vars as [|[[name shape] count] vars IH]; intros rows; simpl.
  - now rewrite app_nil_r.
  - rewrite IH, <- app_assoc. reflexivity.
Qed.

(** X11. The summary table gets one row for each variable of File A, in
    the order of the list, and after them one row for each variable of
    File B; so it has as many rows as the two lists have entries, and the
    point count of a row is the decimal text of the entry's count. *)
Theorem summary_table_rows (result : ComparisonResult) :
  Gui.summary_rows result
  = (map (table_row "File A") (variables_a result)
     ++ map (table_row "File B") (variables_b result))%list
  /\ List.length (Gui.summary_rows result)
     = (List.length (variables_a result)
        + List.length (variables_b result))%nat.
Proof.
  assert (H : Gui.summary_rows result
              = (map (table_row "File A") (variables_a result)
                 ++ map (table_row "File B") (variables_b result))%list).
  { unfold Gui.summary_rows. now rewrite !append_rows_map. }
  split; [exact H|].
  now rewrite H, length_app, !length_map.
Qed.

Lemma display_lines_shape repr em_dash (r : ComparisonResult) :
  exists l1 l2 l3 l4,
    Gui.display_lines repr em_dash r
    = ([l1; l2; l3; l4; ""]
       ++ detail_part repr 200 (difference_details r)
       ++ report_part r)%list.
Proof.
  unfold Gui.display_lines, detail_part, report_part.
  do 4 eexists.
  change (Z.of_nat 200) with 200.
  generalize 200%nat as cap. intros cap.
  destruct (difference_details r) as [|d ds] eqn:Hd.
  - destruct (truthy (report_csv_path r)), (truthy (report_text_path r));
      reflexivity.
  - rewrite fold_left_snoc.
    destruct (Nat.ltb cap (List.length (d :: ds)));
      destruct (truthy (report_csv_path r)),
               (truthy (report_text_path r));
      cbv zeta; rewrite <- ?app_assoc; cbn [app]; rewrite ?app_nil_r;
      reflexivity.
Qed.

Lemma detail_part_length repr cap ds :
  List.length (detail_part repr cap ds)
  = match ds with
    | [] => 0
    | _ => 1 + Nat.min cap (List.length ds)
           + (if Nat.ltb cap (List.length ds) then 1 else 0)
    end%nat.
Proof.
  unfold detail_part. destruct ds as [|d ds]; [reflexivity|].
  rewrite length_app. cbn [List.length]. rewrite length_map, length_firstn.
  destruct (Nat.ltb cap (S (List.length ds))); simpl; lia.
Qed.

Lemma detail_part_first repr cap ds (h rp : list string) :
  List.length h = 5%nat ->
  firstn (Nat.min cap (List.length ds))
         (skipn 6 (h ++ detail_part repr cap ds ++ rp)%list)
  = map (Gui.detail_line repr) (firstn cap ds).
Proof.
  intros Hh.
  destruct h as [|h1 [|h2 [|h3 [|h4 [|h5 [|h6 h]]]]]]; try discriminate Hh.
  cbn [app skipn]. unfold detail_part.
  destruct ds as [|d ds].
  - cbn [List.length]. rewrite Nat.min_0_r, firstn_nil. reflexivity.
  - remember (d :: ds) as l eqn:Hl. clear Hl.
    rewrite <- !app_assoc. cbn [app skipn].
    rewrite firstn_app, length_map, length_firstn, Nat.sub_diag.
    cbn [firstn]. rewrite app_nil_r.
    apply firstn_all2. now rewrite length_map, length_firstn.
Qed.

Lemma detail_part_more repr cap ds (h rp : list string) :
  List.length h = 5%nat ->
  Nat.ltb cap (List.length ds) = true ->
  nth (cap + 6) (h ++ detail_part repr cap ds ++ rp)%list ""
  = "  ... and "
      ++ PyStr.str_of_int (Z.of_nat (List.length ds) - Z.of_nat cap)
      ++ " more.".
Proof.
  intros Hh Hcap. unfold detail_part. rewrite Hcap.
  pose proof Hcap as Hlt. apply Nat.ltb_lt in Hlt.
  destruct ds as [|d ds]; [cbn [List.length] in Hlt; lia|].
  remember (d :: ds) as l eqn:Hl. clear Hl.
  rewrite app_nth2 by lia. rewrite Hh.
  replace (cap + 6 - 5)%nat with (S cap) by lia.
  rewrite <- app_assoc. cbn [app nth].
  rewrite app_nth2 by (rewrite length_map, length_firstn; lia).
  rewrite length_map, length_firstn.
  replace (cap - Nat.min cap (List.length l))%nat with 0%nat by lia.
  reflexivity.
Qed.

(** X12. The text panel never lists more than 200 detail rows: after its
    five summary lines come, when the result has details, a heading, the
    lines of the first 200 details in their order, and, when there are
    more than 200, one line that gives the number of the others; then at
    most two lines name the reports.  The panel is made of 209 lines at
    most, however many details the result holds. *)
Theorem detail_lines_are_capped
  (repr : string -> string) (em_dash : string) (r : ComparisonResult) :
  let ds := difference_details r in
  let n := List.length ds in
  let lines := Gui.display_lines repr em_dash r in
  (List.length lines <= 200 + 9)%nat
  /\ List.length lines
     = (5 + match ds with
            | [] => 0
            | _ => 1 + Nat.min 200 n + (if Nat.ltb 200 n then 1 else 0)
            end
        + (if truthy (report_csv_path r) then 1 else 0)
        + (if truthy (report_text_path r) then 1 else 0))%nat
  /\ firstn (Nat.min 200 n) (skipn 6 lines)
     = map (Gui.detail_line repr) (firstn 200 ds)
  /\ (if Nat.ltb 200 n
      then nth (200 + 6) lines ""
           = "  ... and " ++ PyStr.str_of_int (Z.of_nat n - 200) ++ " more."
      else True).
Proof.
  intros ds n lines. subst lines.
  destruct (display_lines_shape repr em_dash r) as (l1 & l2 & l3 & l4 & ->).
  fold ds. change 200 with (Z.of_nat 200).
  generalize 200%nat as cap. intros cap.
  assert (Hlen : List.length
                   ([l1; l2; l3; l4; ""] ++ detail_part repr cap ds
                    ++ report_part r)%list
                 = (5 + match ds with
                        | [] => 0
                        | _ => 1 + Nat.min cap n
                               + (if Nat.ltb cap n then 1 else 0)
                        end
                    + (if truthy (report_csv_path r) then 1 else 0)
                    + (if truthy (report_text_path r) then 1 else 0))%nat).
  { rewrite !length_app, detail_part_length. unfold report_part.
    rewrite length_app. fold n.
    destruct (truthy (report_csv_path r)), (truthy (report_text_path r));
      destruct ds; cbn [List.length]; lia. }
  split; [|split; [exact Hlen|split]].
  - rewrite Hlen.
    destruct (Nat.ltb cap n) eqn:E;
      destruct (truthy (report_csv_path r)),
               (truthy (report_text_path r));
      destruct ds; lia.
  - now apply detail_part_first.
  - destruct (Nat.ltb cap n) eqn:E; [|exact I].
    now apply detail_part_more.
Qed.

Lemma run_calls_are_prepared w file_a file_b options st :
  exists calls,
    compare_calls (fst (run_comparison w file_a file_b options st))
    = (compare_calls st ++ calls)%list
    /\ Forall (fun args => exists p, args = call_for w options p) calls.
Proof.
  destruct (prepare w file_a file_b) as [e | p] eqn:Hp.
  - exists []. rewrite app_nil_r.
    split; [now apply (run_comparison_unprepared _ _ _ _ _ e)|constructor].
  - exists [call_for w options p].
    split; [now apply run_comparison_prepared_calls|].
    constructor; [eauto | constructor].
Qed.

Lemma no_text_report_recorded w file_a file_b options st st' r :
  run_comparison w file_a file_b options st = (st', inr r) ->
  text_destination w options = None ->
  report_text_path r = AsStr "".
Proof.
  intros Hrun Htxt.
  destruct (prepare w file_a file_b) as [e | p] eqn:Hp.
  - destruct (run_comparison_unprepared w file_a file_b options st e Hp)
      as [Hout _].
    rewrite Hrun in Hout. discriminate Hout.
  - destruct (ncompare_compare w (call_for w options p))
      as [e | [total fs]] eqn:Hcall.
    + rewrite (run_comparison_compare_raises _ _ _ _ _ _ _ Hp Hcall) in Hrun.
      discriminate Hrun.
    + destruct (report_destination_some w options) as [csv Hcsv].
      rewrite (run_comparison_compare_returns _ _ _ _ _ _ _ _ _
                 Hp Hcall Hcsv) in Hrun.
      rewrite finish_run, Htxt in Hrun. cbv zeta in Hrun.
      match type of Hrun with
      | context [merge_csv_report fs (Some csv) ?st0] =>
          destruct (merge_csv_report_frame fs (Some csv) st0)
            as (_ & _ & Ht);
          destruct (merge_csv_report fs (Some csv) st0) as [st1 [e | []]]
      end; [discriminate|].
      cbn [text_report_outcome text_report_recorded] in Hrun.
      injection Hrun as _ <-. simpl in *. rewrite Ht.
      destruct p as [[[[[pa pb] da] db] va] vb]. reflexivity.
Qed.

(** X13. When one of the two paths of the window is blank, [_on_compare]
    only shows the warning: no worker is started and nothing else changes.
    Otherwise it starts a worker on the two stripped paths, and whatever
    the collaborators do, every call of [ncompare.compare] that this
    worker makes carries the three checkboxes as its flags, asks for no
    text report and sends the CSV report to the temporary file; the worker
    emits [error] or [finished] with a result, never [finished] with
    [None], and the result names no text report. *)
Theorem comparison_started_from_the_window
  (str_of_exn : exn -> string) (ellipsis : string) (self : Gui.Window) :
  let file_a := PyStr.strip (Gui.file_a_edit self) in
  let file_b := PyStr.strip (Gui.file_b_edit self) in
  let worker := Gui.mkWorker file_a file_b (options_of_window self) in
  if path_missing self then
    Gui._on_compare ellipsis self
    = Gui.show_dialog
        (Gui.warning "Missing files"
           "Please select both File A and File B before comparing.")
        self
    /\ Gui._worker (Gui._on_compare ellipsis self) = Gui._worker self
  else
    Gui._worker (Gui._on_compare ellipsis self) = Some worker
    /\ forall (w : World) (st : RunState),
         let out := Gui.run str_of_exn w worker st in
         (exists calls,
             compare_calls (fst out) = (compare_calls st ++ calls)%list
             /\ Forall
                  (fun args =>
                     only_diffs args = Gui.only_differences_cb self
                     /\ show_attributes args = Gui.include_attributes_cb self
                     /\ show_chunks args = Gui.include_chunking_cb self
                     /\ file_text args = ""
                     /\ file_csv args = path_str (temporary_csv w))
                  calls)
         /\ match snd out with
            | Gui.finished (Some r) => report_text_path r = AsStr ""
            | Gui.finished None => False
            | Gui.error _ => True
            end.
Proof.
  intros file_a file_b worker. subst worker.
  unfold Gui._on_compare, path_missing.
  change (PyStr.strip (Gui.file_a_edit self)) with file_a.
  change (PyStr.strip (Gui.file_b_edit self)) with file_b.
  clearbody file_a file_b.
  destruct (String.eqb file_a "" || String.eqb file_b ""); [now split|].
  split; [reflexivity|]. intros w st.
  unfold Gui.run. cbn [Gui._file_a Gui._file_b Gui._options].
  destruct (run_calls_are_prepared w file_a file_b (options_of_window self)
              st) as (calls & Hcalls & Hall).
  destruct (run_comparison w file_a file_b (options_of_window self) st)
    as [st' [e | r]] eqn:Hrun; cbn [fst snd] in *.
  - split; [|exact I]. exists calls. split; [exact Hcalls|].
    eapply Forall_impl; [|exact Hall].
    intros args [[[[[[pa pb] da] db] va] vb] ->]. now repeat split.
  - split.
    + exists calls. split; [exact Hcalls|].
      eapply Forall_impl; [|exact Hall].
      intros args [[[[[[pa pb] da] db] va] vb] ->]. now repeat split.
    + now apply (no_text_report_recorded _ _ _ _ _ _ _ Hrun).
Qed.

(** X14. A comparison started from a window with two paths runs its
    course as follows.  [_on_compare] disables the button, shows the
    progress bar and empties the table and the text panel.  When the
    worker's signal is delivered the button is enabled again and the
    progress bar hidden, whatever the outcome.  If [run_comparison]
    returned a result, the table holds its rows, the text panel its lines,
    and no message box was shown; if it raised, the table and the text
    panel are empty, the two summary labels still read "running
    comparison", and one error box holds the text of the exception.  The
    paths and the checkboxes are as they were. *)
Theorem comparison_cycle
  (repr : string -> string) (str_of_exn : exn -> string)
  (em_dash ellipsis : string)
  (w : World) (st : RunState) (self : Gui.Window) :
  path_missing self = false ->
  let file_a := PyStr.strip (Gui.file_a_edit self) in
  let file_b := PyStr.strip (Gui.file_b_edit self) in
  let started := Gui._on_compare ellipsis self in
  let worker := Gui.mkWorker file_a file_b (options_of_window self) in
  let signal := snd (Gui.run str_of_exn w worker st) in
  let done := Gui.deliver repr em_dash ellipsis signal started in
  (Gui.compare_btn_enabled started = false
   /\ Gui.progress_bar_visible started = true
   /\ Gui.summary_table started = []
   /\ Gui.diff_text started = ""
   /\ Gui.dialogs started = Gui.dialogs self)
  /\ Gui.compare_btn_enabled done = true
  /\ Gui.progress_bar_visible done = false
  /\ match snd (run_comparison w file_a file_b (options_of_window self) st)
     with
     | inr r =>
         Gui.summary_table done = Gui.summary_rows r
         /\ Gui.diff_text done
            = String.concat Gui.nl (Gui.display_lines repr em_dash r)
         /\ Gui.dialogs done = Gui.dialogs self
     | inl e =>
         Gui.summary_table done = []
         /\ Gui.diff_text done = ""
         /\ Gui.summary_file_a_label done
            = "File A: (running comparison" ++ ellipsis ++ ")"
         /\ Gui.summary_file_b_label done
            = "File B: (running comparison" ++ ellipsis ++ ")"
         /\ Gui.dialogs done
            = (Gui.dialogs self
               ++ [Gui.critical "Comparison error"
                     ("An error occurred while comparing the files:"
                        ++ Gui.nl ++ Gui.nl ++ str_of_exn e)])%list
     end
  /\ Gui.file_a_edit done = Gui.file_a_edit self
  /\ Gui.file_b_edit done = Gui.file_b_edit self
  /\ options_of_window done = options_of_window self.
Proof.
  intros Hpaths file_a file_b started worker signal done.
  subst done signal started worker.
  unfold Gui._on_compare. unfold path_missing in Hpaths.
  change (PyStr.strip (Gui.file_a_edit self)) with file_a in Hpaths |- *.
  change (PyStr.strip (Gui.file_b_edit self)) with file_b in Hpaths |- *.
  clearbody file_a file_b. rewrite Hpaths.
  unfold Gui.run. cbn [Gui._file_a Gui._file_b Gui._options].
  split; [now repeat split|].
  destruct (run_comparison w file_a file_b (options_of_window self) st)
    as [st' [e | r]]; cbn [fst snd]; now repeat split.
Qed.

Lemma comparison_cycle_witness :
  let done :=
    Gui.deliver (fun s => "'" ++ s ++ "'") "--" "..."
      (snd (Gui.run (fun _ => "error") stub_world
              (Gui.mkWorker "a.nc" "b.nc" (options_of_window stub_window))
              initial_run))
      (Gui._on_compare "..." stub_window) in
  Gui.compare_btn_enabled done = true
  /\ Gui.progress_bar_visible done = false
  /\ Gui.summary_table done = Gui.summary_rows stub_result.
Proof.
  destruct (comparison_cycle (fun s => "'" ++ s ++ "'") (fun _ => "error")
              "--" "..." stub_world initial_run stub_window eq_refl)
    as (_ & Hbtn & Hbar & Hout & _).
  cbv zeta. split; [exact Hbtn|]. split; [exact Hbar|].
  exact (proj1 Hout).
Defined.

(* ===================================================================== *)
(** ** The runtime check                                                  *)
(* ===================================================================== *)








